(** * execexam: the report extractors of [execexam/main.py]

    A shallow embedding of the pure part of [src/execexam/main.py]
    ([path_to_string], [extract_details], [extract_test_run_details],
    [extract_failing_test_details], [is_failing_test_details_empty] and the
    command that [run] builds for the source lookup), together with the
    Python behaviour these functions rely on: subscripting, iteration,
    [str()], [pathlib.Path] on a POSIX system and [posixpath.join]. *)

From Stdlib Require Import String Ascii List ZArith Lia Bool.
From Stdlib Require Import DecimalString.
Import ListNotations.

Set Warnings "-register-all".

Local Open Scope list_scope.
Local Open Scope string_scope.

(** ** Characters and strings *)

Definition nl : string := String (ascii_of_nat 10) EmptyString.
Definition slash : ascii := "/"%char.
Definition sep : string := String slash EmptyString.

(** [str.join]: Python's [sep.join(xs)]. *)
Definition join (s : string) (xs : list string) : string := String.concat s xs.

(** [s.startswith("/")] and [s.endswith("/")]. *)
Definition starts_with_slash (s : string) : bool :=
  match s with
  | String c _ => Ascii.eqb c slash
  | EmptyString => false
  end.

Fixpoint ends_with_slash (s : string) : bool :=
  match s with
  | EmptyString => false
  | String c EmptyString => Ascii.eqb c slash
  | String _ rest => ends_with_slash rest
  end.

(** [s.split("/")]: never empty, one more field than there are slashes. *)
Fixpoint split_slash (s : string) : list string :=
  match s with
  | EmptyString => [EmptyString]
  | String c rest =>
      if Ascii.eqb c slash then EmptyString :: split_slash rest
      else match split_slash rest with
           | h :: t => String c h :: t
           | [] => [String c EmptyString]
           end
  end.

(** ** Python values

    The report is the dictionary that pytest-json-report builds: JSON-shaped
    data.  A dictionary keeps its insertion order, so it is an association
    list; its keys are strings.  A float is carried by the text [str()] gives
    for it, which is all these functions could ever do with one. *)

Inductive value : Type :=
| VNone
| VBool (b : bool)
| VInt (n : Z)
| VFloat (shown : string)
| VStr (s : string)
| VList (items : list value)
| VDict (entries : list (string * value)).

(** ** Exceptions *)

Inductive exn : Type :=
| KeyError (key : string)
| TypeError
| AttributeError.

Definition exn_name (e : exn) : string :=
  match e with
  | KeyError _ => "KeyError"
  | TypeError => "TypeError"
  | AttributeError => "AttributeError"
  end.

Inductive result (A : Type) : Type :=
| Ok (a : A)
| Raise (e : exn).

Arguments Ok {A} a.
Arguments Raise {A} e.

Definition bind {A B : Type} (m : result A) (k : A -> result B) : result B :=
  match m with
  | Ok a => k a
  | Raise e => Raise e
  end.

Notation "x <- m ;; k" := (bind m (fun x => k))
  (at level 61, m at next level, right associativity).

Definition raises {A : Type} (m : result A) : Prop := exists e, m = Raise e.

(** ** Built-in operations *)

Fixpoint lookup (k : string) (d : list (string * value)) : option value :=
  match d with
  | [] => None
  | (k', v) :: rest => if String.eqb k k' then Some v else lookup k rest
  end.

(** [v[k]] for a string key [k]. *)
Definition getitem (v : value) (k : string) : result value :=
  match v with
  | VDict d =>
      match lookup k d with
      | Some x => Ok x
      | None => Raise (KeyError k)
      end
  | _ => Raise TypeError
  end.

(** The elements a [for] loop draws from [v]. *)
Definition iterate (v : value) : result (list value) :=
  match v with
  | VList l => Ok l
  | VDict d => Ok (map (fun kv => VStr (fst kv)) d)
  | VStr s => Ok (map (fun c => VStr (String c EmptyString)) (list_ascii_of_string s))
  | _ => Raise TypeError
  end.

(** [v.items()]. *)
Definition items (v : value) : result (list (string * value)) :=
  match v with
  | VDict d => Ok d
  | _ => Raise AttributeError
  end.

(** [v == "failed"]-style comparison of a value with a string literal. *)
Definition eq_str (v : value) (s : string) : bool :=
  match v with
  | VStr t => String.eqb t s
  | _ => false
  end.

(** *** [repr] of a string and [str] of a value *)

Definition quote1 : ascii := "'"%char.
Definition quote2 : ascii := ascii_of_nat 34.
Definition backslash : ascii := "\"%char.

Fixpoint has_char (c : ascii) (s : string) : bool :=
  match s with
  | EmptyString => false
  | String d rest => Ascii.eqb c d || has_char c rest
  end.

Definition hex_digit (n : nat) : ascii :=
  match n with
  | 0 => "0" | 1 => "1" | 2 => "2" | 3 => "3" | 4 => "4" | 5 => "5"
  | 6 => "6" | 7 => "7" | 8 => "8" | 9 => "9" | 10 => "a" | 11 => "b"
  | 12 => "c" | 13 => "d" | 14 => "e" | _ => "f"
  end%char.

Definition escape_char (q c : ascii) : string :=
  let n := nat_of_ascii c in
  if Ascii.eqb c q || Ascii.eqb c backslash then String backslash (String c EmptyString)
  else if Nat.eqb n 9 then String backslash "t"
  else if Nat.eqb n 10 then String backslash "n"
  else if Nat.eqb n 13 then String backslash "r"
  else if Nat.ltb n 32 || Nat.eqb n 127 then
    String backslash (String "x"%char
      (String (hex_digit (n / 16)) (String (hex_digit (n mod 16)) EmptyString)))
  else String c EmptyString.

Fixpoint escape (q : ascii) (s : string) : string :=
  match s with
  | EmptyString => EmptyString
  | String c rest => escape_char q c ++ escape q rest
  end.

(** [repr(s)] for a string: single quotes unless the text has a single quote
    and no double quote.  Bytes above 127 (UTF-8 text) are kept as they are. *)
Definition repr_str (s : string) : string :=
  let q := if has_char quote1 s && negb (has_char quote2 s) then quote2 else quote1 in
  String q (escape q s ++ String q EmptyString).

Definition str_int (n : Z) : string := NilZero.string_of_int (Z.to_int n).

Fixpoint py_repr (v : value) : string :=
  match v with
  | VNone => "None"
  | VBool true => "True"
  | VBool false => "False"
  | VInt n => str_int n
  | VFloat shown => shown
  | VStr s => repr_str s
  | VList l => "[" ++ join ", " (map py_repr l) ++ "]"
  | VDict d =>
      "{" ++ join ", " (map (fun kv => repr_str (fst kv) ++ ": " ++ py_repr (snd kv)) d) ++ "}"
  end.

(** [str(v)], which is what an f-string field [{v}] renders. *)
Definition py_str (v : value) : string :=
  match v with
  | VStr s => s
  | _ => py_repr v
  end.

(** ** [pathlib.Path] on POSIX *)

Record Path : Type := mkPath { root : string; tail : list string }.

(** [posixpath.splitroot]: no root, the root [/], or the root [//] when the
    text starts with exactly two slashes. *)
Definition splitroot (p : string) : string * string :=
  match p with
  | String c1 r1 =>
      if Ascii.eqb c1 slash then
        match r1 with
        | String c2 r2 =>
            if Ascii.eqb c2 slash then
              if starts_with_slash r2 then (sep, r1) else (sep ++ sep, r2)
            else (sep, r1)
        | EmptyString => (sep, r1)
        end
      else (EmptyString, p)
  | EmptyString => (EmptyString, p)
  end.

Definition keep_segment (x : string) : bool :=
  negb (String.eqb x EmptyString) && negb (String.eqb x ".").

(** [Path(s)] for one string: the root and the segments that are neither
    empty nor a single dot. *)
Definition parse_path (s : string) : Path :=
  let (r, rel) := splitroot s in
  mkPath r (filter keep_segment (split_slash rel)).

(** [posixpath.join(a, *ps)]. *)
Definition join_step (path b : string) : string :=
  if starts_with_slash b then b
  else if String.eqb path EmptyString || ends_with_slash path then path ++ b
  else path ++ sep ++ b.

Definition posix_join (a : string) (ps : list string) : string :=
  fold_left join_step ps a.

(** [Path(a, *ps)] for strings. *)
Definition Path_of_strings (a : string) (ps : list string) : Path :=
  parse_path (posix_join a ps).

(** [Path(v)] for a value of the report. *)
Definition Path_of (v : value) : result Path :=
  match v with
  | VStr s => Ok (parse_path s)
  | _ => Raise TypeError
  end.

(** [p.parts]. *)
Definition parts (p : Path) : list string :=
  if String.eqb (root p) EmptyString then tail p else root p :: tail p.

(** [str(p)] and [p.as_posix()], which agree on POSIX. *)
Definition as_posix (p : Path) : string :=
  if String.eqb (root p) EmptyString then
    match tail p with
    | [] => "."
    | _ => join sep (tail p)
    end
  else root p ++ join sep (tail p).

(** [xs[-n:]] for an integer [n]: the slice starts at index [-n], counted
    from the end when it is negative and clipped to the list. *)
Definition slice_last {A : Type} (n : Z) (xs : list A) : list A :=
  let len := Z.of_nat (length xs) in
  let start := (- n)%Z in
  let start' := if (start <? 0)%Z then Z.max 0 (len + start) else Z.min start len in
  skipn (Z.to_nat start') xs.

(** ** The functions of [main.py] *)

Definition path_to_string (path_name : Path) (levels : Z) : string :=
  let parts := parts path_name in
  if (Z.of_nat (length parts) >? levels)%Z then
    as_posix (Path_of_strings "<...>" (slice_last levels parts))
  else as_posix path_name.



(** A [for] loop whose body updates the local state [S] and may raise. *)
Fixpoint for_each {S A : Type} (body : S -> A -> result S) (xs : list A) (st : S)
  : result S :=
  match xs with
  | [] => Ok st
  | x :: rest => st' <- body st x ;; for_each body rest st'
  end.

Definition extract_details (details : value) : result string :=
  entries <- items details ;;
  let output :=
    fold_left (fun output kv => (output ++ [(py_str (snd kv) ++ " " ++ fst kv)%string])%list)
              entries [] in
  Ok ("Details: " ++ join ", " output).

Definition extract_test_run_details (details : value) : result string :=
  summary_details <- getitem details "summary" ;;
  extract_details summary_details.

(** The locals the loop of [extract_failing_test_details] updates:
    [failing_details_str] and [failing_test_path]. *)
Definition failing_state : Type := (string * option Path)%type.

Definition failing_body (st : failing_state) (test : value) : result failing_state :=
  let (failing_details_str, failing_test_path) := st in
  outcome <- getitem test "outcome" ;;
  if eq_str outcome "failed" then
    failing_test_nodeid <- getitem test "nodeid" ;;
    let failing_details_str :=
      failing_details_str ++ "  Name: " ++ py_str failing_test_nodeid ++ nl in
    failing_test_call <- getitem test "call" ;;
    failing_test_crash <- getitem failing_test_call "crash" ;;
    crash_path <- getitem failing_test_crash "path" ;;
    failing_test_path <- Path_of crash_path ;;
    let failing_test_path_str := path_to_string failing_test_path 4 in
    failing_test_lineno <- getitem failing_test_crash "lineno" ;;
    failing_test_message <- getitem failing_test_crash "message" ;;
    let failing_details_str :=
      failing_details_str ++ "  Path: " ++ failing_test_path_str ++ nl in
    let failing_details_str :=
      failing_details_str ++ "  Line number: " ++ py_str failing_test_lineno ++ nl in
    let failing_details_str :=
      failing_details_str ++ "  Message: " ++ py_str failing_test_message ++ nl in
    Ok (failing_details_str, Some failing_test_path)
  else Ok (failing_details_str, failing_test_path).

Definition extract_failing_test_details (details : value) : result failing_state :=
  tests <- getitem details "tests" ;;
  tests <- iterate tests ;;
  for_each failing_body tests (nl, None).

Definition is_failing_test_details_empty (details : string) : bool :=
  if String.eqb details nl then true else false.

(** What [run] does with the report once pytest has produced it: the shell
    commands it hands to [subprocess.run], in order, and the code it exits
    with.  The field [{failing_test_path}] of the command is [str()] of a
    path, or of [None]. *)
Record run_outcome : Type := mkRun { commands : list string; return_code : Z }.

Definition str_path (p : option Path) : string :=
  match p with
  | Some q => as_posix q
  | None => "None"
  end.

Definition run (report : value) : result run_outcome :=
  test_run_details <- extract_test_run_details report ;;
  extracted <- extract_failing_test_details report ;;
  let (failing_test_details, failing_test_path) := extracted : failing_state in
  if negb (is_failing_test_details_empty failing_test_details) then
    let command := "symbex test_find_minimum_value -f " ++ str_path failing_test_path in
    Ok (mkRun [command] 1)
  else Ok (mkRun [] 0).

(** ** Reports used in the examples *)

Definition crash_record (path : string) (lineno : Z) (message : string) : value :=
  VDict [("path", VStr path); ("lineno", VInt lineno); ("message", VStr message)].

Definition test_record (outcome nodeid : string) (crash : value) : value :=
  VDict [("outcome", VStr outcome); ("nodeid", VStr nodeid);
         ("call", VDict [("crash", crash)])].

Definition report_of (summary : list (string * value)) (tests : list value) : value :=
  VDict [("summary", VDict summary); ("tests", VList tests)].

Definition one_failure_report : value :=
  report_of [("failed", VInt 1); ("passed", VInt 1); ("total", VInt 2)]
    [ test_record "failed" "test_module.py::test_function"
        (crash_record "/home/user/project/test_module.py" 10 "AssertionError");
      test_record "passed" "test_module.py::test_function2"
        (crash_record "/home/user/project/test_module.py" 20 "AssertionError") ].

Definition two_failures_report : value :=
  report_of [("failed", VInt 2); ("total", VInt 2)]
    [ test_record "failed" "tests/test_one.py::test_alpha"
        (crash_record "tests/test_one.py" 7 "assert 1 == 2");
      test_record "failed" "tests/test_two.py::test_beta"
        (crash_record "tests/test_two.py" 12 "assert not True") ].

(** ** The failing tests of a report, record by record

    What the loop of [extract_failing_test_details] reads from one test-case
    record, as a value of its own: nothing for a record whose outcome is not
    [failed], the four fields of the display otherwise. *)

Record failure : Type := mkFailure {
  failure_nodeid : value;
  failure_path : Path;
  failure_lineno : value;
  failure_message : value
}.

Definition failure_of (test : value) : result (option failure) :=
  outcome <- getitem test "outcome" ;;
  if eq_str outcome "failed" then
    nodeid <- getitem test "nodeid" ;;
    call <- getitem test "call" ;;
    crash <- getitem call "crash" ;;
    crash_path <- getitem crash "path" ;;
    path <- Path_of crash_path ;;
    lineno <- getitem crash "lineno" ;;
    message <- getitem crash "message" ;;
    Ok (Some (mkFailure nodeid path lineno message))
  else Ok None.

Fixpoint failures (tests : list value) : result (list failure) :=
  match tests with
  | [] => Ok []
  | t :: rest =>
      view <- failure_of t ;;
      later <- failures rest ;;
      Ok (match view with
          | Some f => f :: later
          | None => later
          end)
  end.

(** The four display lines of one failing test. *)
Definition name_line (f : failure) : string :=
  "  Name: " ++ py_str (failure_nodeid f) ++ nl.
Definition path_line (f : failure) : string :=
  "  Path: " ++ path_to_string (failure_path f) 4 ++ nl.
Definition lineno_line (f : failure) : string :=
  "  Line number: " ++ py_str (failure_lineno f) ++ nl.
Definition message_line (f : failure) : string :=
  "  Message: " ++ py_str (failure_message f) ++ nl.

Definition block (f : failure) : string :=
  name_line f ++ path_line f ++ lineno_line f ++ message_line f.

(** The tests of a report, as the loop sees them. *)
Definition tests_of (details : value) : result (list value) :=
  tests <- getitem details "tests" ;;
  iterate tests.

(** The crash data [call.crash] of a test-case record. *)
Definition crash_of (test : value) : result value :=
  call <- getitem test "call" ;;
  getitem call "crash".

Definition is_failed (test : value) : Prop :=
  exists outcome, getitem test "outcome" = Ok outcome /\ eq_str outcome "failed" = true.

Definition not_failed (test : value) : Prop :=
  exists outcome, getitem test "outcome" = Ok outcome /\ eq_str outcome "failed" = false.

(** The display the specification describes: the blocks of the failing
    tests with a blank line between consecutive blocks, after the leading
    newline. *)
Definition display_with_blank_lines (fs : list failure) : string :=
  nl ++ join nl (map block fs).

(** ** The assertion formatters of [execexam/extract.py] *)

(** Modelled from the spec: [extract_test_assertion_details], the one-block
    assertion formatter of [execexam/extract.py], which [tests/test_extract.py]
    imports and which is not among the sources.  One pass over the entries of
    the mapping in its own order; the first entry is written after the bullet
    and every later one after the hanging indent, each as [key: value] and a
    newline. *)
Definition extract_test_assertion_details (test_details : list (string * value))
  : string :=
  snd (fold_left
         (fun (st : bool * string) (kv : string * value) =>
            let (first, output) := st in
            let indent := if first then "  - " else "    " in
            (false, output ++ indent ++ fst kv ++ ": " ++ py_str (snd kv) ++ nl))
         test_details (true, EmptyString)).

(** Modelled from the spec: [extract_test_assertion_details_list], the
    list-level assertion formatter of [execexam/extract.py], not among the
    sources either.  It appends the block of each mapping in sequence order
    and writes nothing else. *)
Definition extract_test_assertion_details_list
  (details_list : list (list (string * value))) : string :=
  fold_left (fun output details => output ++ extract_test_assertion_details details)
            details_list EmptyString.

(** A line of an assertion block after the first. *)
Definition hanging_line (kv : string * value) : string :=
  "    " ++ fst kv ++ ": " ++ py_str (snd kv) ++ nl.

(** [needle in text]. *)
Fixpoint contains (needle text : string) : bool :=
  String.prefix needle text ||
  match text with
  | EmptyString => false
  | String _ rest => contains needle rest
  end.

(** Concatenation of a list of strings, in order. *)
Definition flat (xs : list string) : string := fold_right String.append EmptyString xs.

(** The path that is left in [failing_test_path] after the failing tests
    [fs], starting from [init]. *)
Definition last_path (fs : list failure) (init : option Path) : option Path :=
  last (map (fun f => Some (failure_path f)) fs) init.

(** One rendered entry of the detail formatter: the value, a space, the key. *)
Definition detail_entry (kv : string * value) : string :=
  py_str (snd kv) ++ " " ++ fst kv.

(** The report of [test_extract_failing_test_details] in
    [tests/test_extract.py]: the crash records carry no path. *)
Definition test_suite_report : value :=
  VDict [("root", VStr "/home/user/project");
         ("tests", VList [
            VDict [("outcome", VStr "failed");
                   ("nodeid", VStr "test_module.py::test_function");
                   ("call", VDict [("crash",
                      VDict [("lineno", VInt 10); ("message", VStr "AssertionError")])])];
            VDict [("outcome", VStr "passed");
                   ("nodeid", VStr "test_module.py::test_function2");
                   ("call", VDict [("crash",
                      VDict [("lineno", VInt 20); ("message", VStr "AssertionError")])])]])].

(** A report whose only test failed and carries no crash data, and one
    whose failing test has no call record at all. *)
Definition missing_crash_report : value :=
  report_of [("failed", VInt 1)]
    [VDict [("outcome", VStr "failed"); ("nodeid", VStr "test_a.py::test_a");
            ("call", VDict [("duration", VFloat "0.0012")])]].

Definition missing_call_report : value :=
  report_of [("failed", VInt 1)]
    [VDict [("outcome", VStr "failed"); ("nodeid", VStr "test_a.py::test_a")]].

(** A report without the top-level summary. *)
Definition missing_summary_report : value := VDict [("tests", VList [])].

(** A report whose tests all passed. *)
Definition all_passed_report : value :=
  report_of [("passed", VInt 2); ("total", VInt 2)]
    [ test_record "passed" "tests/test_one.py::test_alpha" VNone;
      VDict [("outcome", VStr "passed"); ("nodeid", VStr "tests/test_two.py::test_beta")] ].

(** The last [n] elements of a list. *)
Definition lastn {A : Type} (n : nat) (xs : list A) : list A :=
  skipn (length xs - n) xs.

(** A segment that [Path] keeps as it is: not empty, not a single dot and
    without a slash. *)
Definition good_segment (x : string) : bool :=
  keep_segment x && negb (has_char slash x).

(** The display of the report with two failing tests. *)
Definition two_failures_display : string :=
  nl ++ "  Name: tests/test_one.py::test_alpha" ++ nl
     ++ "  Path: tests/test_one.py" ++ nl
     ++ "  Line number: 7" ++ nl
     ++ "  Message: assert 1 == 2" ++ nl
     ++ "  Name: tests/test_two.py::test_beta" ++ nl
     ++ "  Path: tests/test_two.py" ++ nl
     ++ "  Line number: 12" ++ nl
     ++ "  Message: assert not True" ++ nl.

(** The paths that [Path] builds: the root is absent, one slash or two
    slashes, and every segment is a good one. *)
Definition wf_path (p : Path) : Prop :=
  (root p = EmptyString \/ root p = sep \/ root p = sep ++ sep)
  /\ Forall (fun x => good_segment x = true) (tail p).

(** * Properties *)

(** ** Strings and lists *)

Lemma append_assoc (a b c : string) : (a ++ b) ++ c = a ++ (b ++ c).
Proof. induction a as [|x a IH]; simpl; [reflexivity | now rewrite IH]. Qed.

Lemma append_nil_r (a : string) : a ++ EmptyString = a.
Proof. induction a as [|x a IH]; simpl; [reflexivity | now rewrite IH]. Qed.

Lemma last_cons {A : Type} (a d : A) (l : list A) : last (a :: l) d = last l a.
Proof.
  revert a d. induction l as [|b l IH]; intros a d; [reflexivity|].
  change (last (a :: b :: l) d) with (last (b :: l) d).
  rewrite (IH b d), (IH b a). reflexivity.
Qed.

(** ** The error monad *)

Lemma for_each_app {S A : Type} (body : S -> A -> result S) (xs ys : list A) (st : S) :
  for_each body (xs ++ ys)%list st = (st' <- for_each body xs st ;; for_each body ys st').
Proof.
  revert st. induction xs as [|x xs IH]; intros st; simpl; [reflexivity|].
  destruct (body st x) as [st'|e]; simpl; [apply IH | reflexivity].
Qed.

(** ** The loop of [extract_failing_test_details] in closed form *)

(** One turn of the loop on a record and the view of that record. *)
Lemma failing_body_view (s : string) (p : option Path) (test : value) :
  failing_body (s, p) test
  = (view <- failure_of test ;;
     Ok (match view with
         | Some f => (s ++ block f, Some (failure_path f))
         | None => (s, p)
         end)).
Proof.
  unfold failing_body, failure_of.
  destruct (getitem test "outcome") as [outcome|e]; cbn [bind]; [|reflexivity].
  destruct (eq_str outcome "failed"); cbn [bind]; [|reflexivity].
  destruct (getitem test "nodeid") as [nodeid|e]; cbn [bind]; [|reflexivity].
  destruct (getitem test "call") as [call|e]; cbn [bind]; [|reflexivity].
  destruct (getitem call "crash") as [crash|e]; cbn [bind]; [|reflexivity].
  destruct (getitem crash "path") as [cp|e]; cbn [bind]; [|reflexivity].
  destruct (Path_of cp) as [path|e]; cbn [bind]; [|reflexivity].
  destruct (getitem crash "lineno") as [lineno|e]; cbn [bind]; [|reflexivity].
  destruct (getitem crash "message") as [message|e]; cbn [bind]; [|reflexivity].
  unfold block, name_line, path_line, lineno_line, message_line.
  cbn [failure_nodeid failure_path failure_lineno failure_message].
  repeat rewrite append_assoc. reflexivity.
Qed.

(** The whole loop: the blocks of the failing tests are appended in report
    order and the path is the one of the last failing test; the first record
    that raises ends the loop with its exception. *)
Lemma for_each_failing_body (tests : list value) (s : string) (p : option Path) :
  for_each failing_body tests (s, p)
  = (fs <- failures tests ;; Ok (s ++ flat (map block fs), last_path fs p)).
Proof.
  revert s p. induction tests as [|t rest IH]; intros s p.
  - simpl. unfold last_path. simpl. now rewrite append_nil_r.
  - cbn [for_each failures]. rewrite failing_body_view.
    destruct (failure_of t) as [[f|]|e]; simpl; [| |reflexivity].
    + rewrite IH. destruct (failures rest) as [fs|e]; simpl; [|reflexivity].
      unfold last_path. cbn [map]. rewrite last_cons, append_assoc. reflexivity.
    + rewrite IH. destruct (failures rest) as [fs|e]; reflexivity.
Qed.

Lemma extract_failing_test_details_closed (details : value) :
  extract_failing_test_details details
  = (tests <- tests_of details ;;
     fs <- failures tests ;;
     Ok (nl ++ flat (map block fs), last_path fs None)).
Proof.
  unfold extract_failing_test_details, tests_of.
  destruct (getitem details "tests") as [tests|e]; simpl; [|reflexivity].
  destruct (iterate tests) as [ts|e]; simpl; [|reflexivity].
  apply for_each_failing_body.
Qed.

(** ** The detail formatter and the summary extractor *)

Lemma fold_left_snoc {A B : Type} (f : A -> B) (xs : list A) (acc : list B) :
  fold_left (fun output x => (output ++ [f x])%list) xs acc = (acc ++ map f xs)%list.
Proof.
  revert acc. induction xs as [|x xs IH]; intros acc; simpl.
  - now rewrite app_nil_r.
  - rewrite IH, <- app_assoc. reflexivity.
Qed.

(** On a mapping the formatter writes the prefix and the entries of the
    mapping, one per key and in the mapping's order, joined by a comma and a
    space. *)
Lemma extract_details_entries (m : list (string * value)) :
  extract_details (VDict m) = Ok ("Details: " ++ join ", " (map detail_entry m)).
Proof.
  unfold extract_details. cbn [items bind].
  rewrite (fold_left_snoc detail_entry). reflexivity.
Qed.

(** C3, at the empty mapping: the formatter returns the bare prefix
    [Details: ] and not the empty string that the claim and the tests
    [test_extract_details_hypothesis] and [test_extract_test_run_details]
    ask for; the summary extractor inherits it. *)
Theorem extract_details_empty_mapping :
  extract_details (VDict []) = Ok "Details: "
  /\ extract_details (VDict []) <> Ok EmptyString
  /\ extract_test_run_details (VDict [("summary", VDict [])]) = Ok "Details: ".
Proof. repeat split; try reflexivity. discriminate. Qed.

(** On a mapping that is not empty: the prefix, then the [value key] pairs
    in iteration order joined by [, ]. *)
Lemma extract_details_nonempty (kv : string * value) (m : list (string * value)) :
  extract_details (VDict (kv :: m))
  = Ok ("Details: " ++ join ", " (map detail_entry (kv :: m))).
Proof. apply extract_details_entries. Qed.

(** C7: when the report has a summary, the summary extractor returns what
    the detail formatter returns on it, whatever it is; on a summary mapping
    that is the prefix followed by exactly one entry per entry of the
    mapping, in the mapping's order: the [i]-th rendered entry is the value
    and the key of the [i]-th entry, so no key is dropped, moved or added. *)
Theorem extract_test_run_details_pass_through
  (report summary : value) (m : list (string * value)) :
  getitem report "summary" = Ok summary ->
  extract_test_run_details report = extract_details summary
  /\ (summary = VDict m ->
      exists output,
        extract_test_run_details report = Ok ("Details: " ++ join ", " output)
        /\ length output = length m
        /\ forall i k v, nth_error m i = Some (k, v) ->
                         nth_error output i = Some (py_str v ++ " " ++ k)).
Proof.
  intros Hsum. unfold extract_test_run_details. rewrite Hsum. cbn [bind].
  split; [reflexivity|]. intros ->.
  exists (map detail_entry m). rewrite extract_details_entries.
  split; [reflexivity|]. split; [apply length_map|].
  intros i k v Hi. rewrite nth_error_map, Hi. reflexivity.
Qed.

Lemma extract_test_run_details_pass_through_witness :
  getitem one_failure_report "summary"
    = Ok (VDict [("failed", VInt 1); ("passed", VInt 1); ("total", VInt 2)])
  /\ extract_test_run_details one_failure_report
     = extract_details (VDict [("failed", VInt 1); ("passed", VInt 1); ("total", VInt 2)]).
Proof.
  split; [reflexivity|].
  apply (extract_test_run_details_pass_through one_failure_report _
           [("failed", VInt 1); ("passed", VInt 1); ("total", VInt 2)]).
  reflexivity.
Defined.

(** ** Records that did not fail *)

Lemma failing_body_not_failed (st : failing_state) (test : value) :
  not_failed test -> failing_body st test = Ok st.
Proof.
  intros (outcome & Hget & Hne). destruct st as [s p].
  unfold failing_body. rewrite Hget. cbn [bind]. rewrite Hne. reflexivity.
Qed.

Lemma failure_of_not_failed (test : value) :
  not_failed test -> failure_of test = Ok None.
Proof.
  intros (outcome & Hget & Hne).
  unfold failure_of. rewrite Hget. cbn [bind]. rewrite Hne. reflexivity.
Qed.

Lemma failures_not_failed (tests : list value) :
  Forall not_failed tests -> failures tests = Ok [].
Proof.
  induction 1 as [|t rest Ht _ IH]; [reflexivity|].
  cbn [failures]. rewrite (failure_of_not_failed t Ht), IH. reflexivity.
Qed.

(** C8: a record whose outcome is not [failed] can be taken out of the
    report without any change to what the extraction returns, the display
    string, the path and a possible exception alike; nothing is asked of the
    record beyond its outcome, so its crash data plays no part. *)
Theorem not_failed_contributes_nothing
  (report report' : value) (before after : list value) (test : value) :
  getitem report "tests" = Ok (VList (before ++ test :: after)) ->
  getitem report' "tests" = Ok (VList (before ++ after)) ->
  not_failed test ->
  extract_failing_test_details report = extract_failing_test_details report'.
Proof.
  intros Hr Hr' Hnf. unfold extract_failing_test_details.
  rewrite Hr, Hr'. cbn [bind iterate].
  rewrite !for_each_app. destruct (for_each failing_body before (nl, None)) as [st|e];
    cbn [bind for_each]; [|reflexivity].
  rewrite (failing_body_not_failed st test Hnf). reflexivity.
Qed.

Lemma not_failed_contributes_nothing_witness :
  not_failed (test_record "passed" "test_module.py::test_function2"
                (crash_record "/home/user/project/test_module.py" 20 "AssertionError"))
  /\ extract_failing_test_details one_failure_report
     = extract_failing_test_details
         (report_of []
            [test_record "failed" "test_module.py::test_function"
               (crash_record "/home/user/project/test_module.py" 10 "AssertionError")]).
Proof.
  assert (H : not_failed (test_record "passed" "test_module.py::test_function2"
                (crash_record "/home/user/project/test_module.py" 20 "AssertionError"))).
  { exists (VStr "passed"). split; reflexivity. }
  split; [exact H|].
  apply (not_failed_contributes_nothing one_failure_report _
           [test_record "failed" "test_module.py::test_function"
              (crash_record "/home/user/project/test_module.py" 10 "AssertionError")]
           []
           (test_record "passed" "test_module.py::test_function2"
              (crash_record "/home/user/project/test_module.py" 20 "AssertionError")));
    [reflexivity | reflexivity | exact H].
Defined.

(** ** The assertion formatters *)

Lemma assertion_lines_after_first (entries : list (string * value)) (output : string) :
  fold_left
    (fun (st : bool * string) (kv : string * value) =>
       let (first, output) := st in
       let indent := if first then "  - " else "    " in
       (false, output ++ indent ++ fst kv ++ ": " ++ py_str (snd kv) ++ nl))
    entries (false, output)
  = (false, output ++ flat (map hanging_line entries)).
Proof.
  revert output. induction entries as [|kv rest IH]; intros output.
  - cbn [fold_left map flat fold_right]. now rewrite append_nil_r.
  - cbn [fold_left map flat fold_right]. rewrite IH.
    cbn [flat]. rewrite append_assoc. reflexivity.
Qed.

Lemma assertion_list_fold (blocks : list (list (string * value))) (output : string) :
  fold_left (fun output details => output ++ extract_test_assertion_details details)
            blocks output
  = output ++ flat (map extract_test_assertion_details blocks).
Proof.
  revert output. induction blocks as [|b rest IH]; intros output.
  - cbn [fold_left map flat fold_right]. now rewrite append_nil_r.
  - cbn [fold_left map flat fold_right]. rewrite IH, append_assoc. reflexivity.
Qed.

(** C9: the one-block formatter writes the first entry of a mapping as
    [  - key: value] and a newline and every later entry as [    key: value]
    and a newline, in the mapping's order (and nothing for an empty mapping);
    the list-level formatter is the concatenation of the blocks in sequence
    order, so two blocks follow each other with nothing in between. *)
Theorem assertion_blocks_layout :
  extract_test_assertion_details [] = EmptyString
  /\ (forall kv rest,
        extract_test_assertion_details (kv :: rest)
        = "  - " ++ fst kv ++ ": " ++ py_str (snd kv) ++ nl
          ++ flat (map (fun e => "    " ++ fst e ++ ": " ++ py_str (snd e) ++ nl) rest))
  /\ (forall blocks,
        extract_test_assertion_details_list blocks
        = flat (map extract_test_assertion_details blocks))
  /\ (forall b1 b2,
        extract_test_assertion_details_list [b1; b2]
        = extract_test_assertion_details b1 ++ extract_test_assertion_details b2).
Proof.
  split; [reflexivity|]. split; [|split].
  - intros kv rest. unfold extract_test_assertion_details.
    cbn [fold_left]. rewrite assertion_lines_after_first. cbn [snd].
    unfold hanging_line. repeat rewrite append_assoc. reflexivity.
  - intros blocks. unfold extract_test_assertion_details_list.
    now rewrite assertion_list_fold.
  - intros b1 b2. unfold extract_test_assertion_details_list.
    rewrite assertion_list_fold. cbn [map flat fold_right append].
    now rewrite append_nil_r.
Qed.

(** The expected outputs of [test_extract_test_assertion_details] and
    [test_extract_test_assertion_details_list]. *)
Example test_extract_test_assertion_details :
  extract_test_assertion_details
    [("assertion1", VStr "value1"); ("assertion2", VStr "value2");
     ("assertion3", VStr "value3")]
  = "  - assertion1: value1" ++ nl ++ "    assertion2: value2" ++ nl
    ++ "    assertion3: value3" ++ nl.
Proof. reflexivity. Qed.

Example test_extract_test_assertion_details_list :
  extract_test_assertion_details_list
    [[("assertion1", VStr "value1"); ("assertion2", VStr "value2")];
     [("assertion3", VStr "value3"); ("assertion4", VStr "value4")]]
  = "  - assertion1: value1" ++ nl ++ "    assertion2: value2" ++ nl
    ++ "  - assertion3: value3" ++ nl ++ "    assertion4: value4" ++ nl.
Proof. reflexivity. Qed.

(** ** Records that failed *)

Lemma failures_app (xs ys : list value) :
  failures (xs ++ ys)%list
  = (a <- failures xs ;; b <- failures ys ;; Ok (a ++ b)%list).
Proof.
  induction xs as [|x xs IH]; cbn [app failures bind].
  - destruct (failures ys); reflexivity.
  - destruct (failure_of x) as [view|e]; cbn [bind]; [|reflexivity].
    rewrite IH. destruct (failures xs) as [a|e]; cbn [bind]; [|reflexivity].
    destruct (failures ys) as [b|e]; cbn [bind]; [|reflexivity].
    destruct view; reflexivity.
Qed.

(** The view of a failed record holds the fields the loop reads from it. *)
Lemma failure_of_fields (test : value) (f : failure) :
  failure_of test = Ok (Some f) ->
  is_failed test
  /\ getitem test "nodeid" = Ok (failure_nodeid f)
  /\ exists crash crash_path,
       crash_of test = Ok crash
       /\ getitem crash "path" = Ok crash_path
       /\ Path_of crash_path = Ok (failure_path f)
       /\ getitem crash "lineno" = Ok (failure_lineno f)
       /\ getitem crash "message" = Ok (failure_message f).
Proof.
  unfold failure_of, crash_of, is_failed.
  destruct (getitem test "outcome") as [outcome|e]; cbn [bind]; [|discriminate].
  destruct (eq_str outcome "failed") eqn:Hfailed; [|discriminate].
  destruct (getitem test "nodeid") as [nodeid|e]; cbn [bind]; [|discriminate].
  destruct (getitem test "call") as [call|e]; cbn [bind]; [|discriminate].
  destruct (getitem call "crash") as [crash|e]; cbn [bind]; [|discriminate].
  destruct (getitem crash "path") as [cp|e] eqn:Hcp; cbn [bind]; [|discriminate].
  destruct (Path_of cp) as [path|e] eqn:Hpath; cbn [bind]; [|discriminate].
  destruct (getitem crash "lineno") as [lineno|e] eqn:Hl; cbn [bind]; [|discriminate].
  destruct (getitem crash "message") as [message|e] eqn:Hm; cbn [bind]; [|discriminate].
  intros [= <-]. cbn. split; [eauto|]. split; [reflexivity|].
  exists crash, cp. auto.
Qed.

(** A failed record is never viewed as a record that did not fail. *)
Lemma failure_of_failed (test : value) (view : option failure) :
  is_failed test -> failure_of test = Ok view -> exists f, view = Some f.
Proof.
  intros (outcome & Hget & Hfailed). unfold failure_of.
  rewrite Hget. cbn [bind]. rewrite Hfailed.
  destruct (getitem test "nodeid") as [nodeid|e]; cbn [bind]; [|discriminate].
  destruct (getitem test "call") as [call|e]; cbn [bind]; [|discriminate].
  destruct (getitem call "crash") as [crash|e]; cbn [bind]; [|discriminate].
  destruct (getitem crash "path") as [cp|e]; cbn [bind]; [|discriminate].
  destruct (Path_of cp) as [path|e]; cbn [bind]; [|discriminate].
  destruct (getitem crash "lineno") as [lineno|e]; cbn [bind]; [|discriminate].
  destruct (getitem crash "message") as [message|e]; cbn [bind]; [|discriminate].
  intros [= <-]. eauto.
Qed.

(** A failed record without crash data has no view: reading it raises. *)
Lemma failure_of_lacks_crash (test : value) (e : exn) :
  is_failed test -> crash_of test = Raise e -> raises (failure_of test).
Proof.
  intros (outcome & Hget & Hfailed) Hcrash. unfold failure_of, crash_of in *.
  rewrite Hget. cbn [bind]. rewrite Hfailed.
  destruct (getitem test "nodeid") as [nodeid|e1]; cbn [bind]; [|now eexists].
  destruct (getitem test "call") as [call|e2]; cbn [bind] in *; [|now eexists].
  rewrite Hcrash. cbn [bind]. now eexists.
Qed.

(** The extraction returns exactly on the reports whose tests can all be
    viewed, and then with the closed form of the loop. *)
Lemma extract_failing_test_details_returns (details : value) (s : string) (p : option Path) :
  extract_failing_test_details details = Ok (s, p) <->
  exists tests fs,
    tests_of details = Ok tests /\ failures tests = Ok fs
    /\ s = nl ++ flat (map block fs) /\ p = last_path fs None.
Proof.
  rewrite extract_failing_test_details_closed. split.
  - destruct (tests_of details) as [tests|e]; cbn [bind]; [|discriminate].
    destruct (failures tests) as [fs|e] eqn:Hfs; cbn [bind]; [|discriminate].
    intros [= <- <-]. exists tests, fs. repeat split; assumption || reflexivity.
  - intros (tests & fs & -> & Hfs & -> & ->). cbn [bind]. rewrite Hfs. reflexivity.
Qed.

Lemma last_path_some (fs : list failure) (q : Path) :
  exists q', last_path fs (Some q) = Some q'.
Proof.
  revert q. induction fs as [|f fs IH]; intros q; [now exists q|].
  unfold last_path in *. cbn [map]. rewrite last_cons. apply IH.
Qed.

(** The display is the bare newline exactly when no path was recorded. *)
Lemma display_empty_iff_no_path (fs : list failure) :
  is_failing_test_details_empty (nl ++ flat (map block fs))
  = match last_path fs None with None => true | Some _ => false end.
Proof.
  destruct fs as [|f fs]; [reflexivity|].
  unfold last_path. cbn [map]. rewrite last_cons.
  destruct (last_path_some fs (failure_path f)) as [q' Hq]. unfold last_path in Hq.
  rewrite Hq. reflexivity.
Qed.

(** X7: without a failed record the extraction returns the bare newline and no
    path. *)
Lemma no_failures_sentinel (details : value) (tests : list value) :
  tests_of details = Ok tests -> Forall not_failed tests ->
  extract_failing_test_details details = Ok (nl, None).
Proof.
  intros Ht Hall. rewrite extract_failing_test_details_closed, Ht. cbn [bind].
  rewrite (failures_not_failed tests Hall). reflexivity.
Qed.

Lemma is_failing_test_details_empty_iff (details : string) :
  is_failing_test_details_empty details = true <-> details = nl.
Proof.
  unfold is_failing_test_details_empty.
  destruct (String.eqb_spec details nl); split; congruence.
Qed.

(** ** The failing-test extractor *)

(** C1, at a report with two failing tests and at the report of the test
    suite: two tests failed, yet the second component is one path, the one of
    the second failing test, and no sequence of name and path records, so it
    has neither one entry per failing test nor any test name; and the report
    of [test_extract_failing_test_details], whose crash records have no path,
    makes the extractor raise [KeyError] instead of returning the one-element
    list the test expects. *)
Theorem two_failures_one_path :
  (ts <- tests_of two_failures_report ;; fs <- failures ts ;; Ok (length fs)) = Ok 2%nat
  /\ (r <- extract_failing_test_details two_failures_report ;; Ok (snd r))
     = Ok (Some (parse_path "tests/test_two.py"))
  /\ extract_failing_test_details test_suite_report = Raise (KeyError "path").
Proof. repeat split; reflexivity. Qed.

(** C2, at a report whose tests all passed: the string is the single
    newline, which the emptiness check accepts, and the second component is
    [None], the absence of a path, where the claim has an empty list. *)
Theorem all_passed_returns_no_path :
  extract_failing_test_details all_passed_report = Ok (nl, None)
  /\ is_failing_test_details_empty nl = true
  /\ is_failing_test_details_empty EmptyString = false.
Proof. repeat split; reflexivity. Qed.

(** The claim of C4 fails on a failed record without crash data and on a
    report without summary: both calls raise [KeyError], and no exception
    named [MalformedCrashDataError] or [MissingFieldError]. *)
Lemma missing_fields_error_names :
  ~ (exists e, extract_failing_test_details missing_crash_report = Raise e
               /\ exn_name e = "MalformedCrashDataError")
  /\ ~ (exists e, extract_test_run_details missing_summary_report = Raise e
                  /\ exn_name e = "MissingFieldError").
Proof.
  split; intros (e & Hraise & Hname); vm_compute in Hraise;
    injection Hraise as <-; discriminate Hname.
Qed.

(** C4, amended: a report with a failed record that lacks [call.crash] never
    gets a result from the extractor, which raises; when the records before
    it are read without error and the record has a nodeid, the exception is
    the one the lookup of [call.crash] raises, [KeyError] with the missing key
    [call] or [crash] for a record, respectively a call record, without that
    key; and on a report without [summary] the summary extractor raises
    [KeyError] with the key [summary]. *)
Theorem missing_fields_raise_key_error
  (details : value) (before after : list value) (test : value) (e : exn) :
  tests_of details = Ok (before ++ test :: after)%list ->
  is_failed test ->
  crash_of test = Raise e ->
  raises (extract_failing_test_details details)
  /\ (forall st nodeid,
        for_each failing_body before (nl, None) = Ok st ->
        getitem test "nodeid" = Ok nodeid ->
        extract_failing_test_details details = Raise e)
  /\ (forall d, test = VDict d -> lookup "call" d = None -> e = KeyError "call")
  /\ (forall d c, test = VDict d -> lookup "call" d = Some (VDict c) ->
        lookup "crash" c = None -> e = KeyError "crash")
  /\ (forall d, lookup "summary" d = None ->
        extract_test_run_details (VDict d) = Raise (KeyError "summary")).
Proof.
  intros Htests Hfailed Hcrash. repeat split.
  - rewrite extract_failing_test_details_closed, Htests. cbn [bind].
    rewrite failures_app. destruct (failures before) as [a|e1]; cbn [bind]; [|now eexists].
    cbn [failures]. destruct (failure_of_lacks_crash test e Hfailed Hcrash) as [e2 ->].
    cbn [bind]. now eexists.
  - intros st nodeid Hbefore Hnodeid.
    unfold extract_failing_test_details. unfold tests_of in Htests.
    destruct (getitem details "tests") as [tv|e1]; cbn [bind] in *; [|discriminate].
    rewrite Htests. cbn [bind]. rewrite for_each_app, Hbefore. cbn [bind for_each].
    destruct Hfailed as (outcome & Hget & Hf). destruct st as [s p].
    unfold failing_body. rewrite Hget. cbn [bind]. rewrite Hf, Hnodeid. cbn [bind].
    unfold crash_of in Hcrash.
    destruct (getitem test "call") as [call|e2]; cbn [bind] in *.
    + rewrite Hcrash. reflexivity.
    + injection Hcrash as ->. reflexivity.
  - intros d -> Hcall. unfold crash_of in Hcrash. cbn [getitem] in Hcrash.
    rewrite Hcall in Hcrash. cbn [bind] in Hcrash. congruence.
  - intros d c -> Hcall Hc. unfold crash_of in Hcrash. cbn [getitem] in Hcrash.
    rewrite Hcall in Hcrash. cbn [bind getitem] in Hcrash. rewrite Hc in Hcrash.
    congruence.
  - intros d Hsum. unfold extract_test_run_details. cbn [getitem].
    rewrite Hsum. reflexivity.
Qed.

Lemma missing_fields_raise_key_error_witness :
  is_failed (VDict [("outcome", VStr "failed"); ("nodeid", VStr "test_a.py::test_a")])
  /\ crash_of (VDict [("outcome", VStr "failed"); ("nodeid", VStr "test_a.py::test_a")])
     = Raise (KeyError "call")
  /\ raises (extract_failing_test_details missing_call_report).
Proof.
  assert (Hf : is_failed
                 (VDict [("outcome", VStr "failed"); ("nodeid", VStr "test_a.py::test_a")])).
  { exists (VStr "failed"). split; reflexivity. }
  split; [exact Hf|]. split; [reflexivity|].
  apply (missing_fields_raise_key_error missing_call_report [] []
           (VDict [("outcome", VStr "failed"); ("nodeid", VStr "test_a.py::test_a")])
           (KeyError "call")); [reflexivity | exact Hf | reflexivity].
Defined.

(** The claim of C5 fails on a report with two failing tests: the display is
    not the one with a blank line between the two blocks, and it has no
    empty line at all. *)
Lemma blocks_not_separated_by_blank_line :
  exists fs s p,
    (ts <- tests_of two_failures_report ;; failures ts) = Ok fs
    /\ extract_failing_test_details two_failures_report = Ok (s, p)
    /\ s <> display_with_blank_lines fs
    /\ contains (nl ++ nl) s = false.
Proof.
  eexists _, _, _. split; [vm_compute; reflexivity|].
  split; [vm_compute; reflexivity|].
  split; [vm_compute; discriminate | vm_compute; reflexivity].
Qed.

(** C5, amended: when every record of the report can be read, the display
    string is a newline followed by the blocks of the failing tests in report
    order, one directly after the other; a block is the four lines
    [  Name: nodeid], [  Path: elided crash.path], [  Line number: lineno] and
    [  Message: message] in this order, each ended by a newline, and no
    blank line stands between two blocks. *)
Theorem display_is_blocks_in_order
  (details : value) (tests : list value) (fs : list failure) :
  tests_of details = Ok tests ->
  failures tests = Ok fs ->
  (exists p, extract_failing_test_details details = Ok (nl ++ flat (map block fs), p))
  /\ (forall f,
        block f = "  Name: " ++ py_str (failure_nodeid f) ++ nl
                  ++ "  Path: " ++ path_to_string (failure_path f) 4 ++ nl
                  ++ "  Line number: " ++ py_str (failure_lineno f) ++ nl
                  ++ "  Message: " ++ py_str (failure_message f) ++ nl)
  /\ (forall f1 f2 later,
        flat (map block (f1 :: f2 :: later))
        = block f1 ++ block f2 ++ flat (map block later)).
Proof.
  intros Ht Hfs. repeat split.
  - exists (last_path fs None).
    apply extract_failing_test_details_returns. exists tests, fs. auto.
  - intros f. unfold block, name_line, path_line, lineno_line, message_line.
    repeat rewrite append_assoc. reflexivity.
Qed.

Lemma display_is_blocks_in_order_witness :
  exists fs,
    failures [ test_record "failed" "tests/test_one.py::test_alpha"
                 (crash_record "tests/test_one.py" 7 "assert 1 == 2");
               test_record "failed" "tests/test_two.py::test_beta"
                 (crash_record "tests/test_two.py" 12 "assert not True") ] = Ok fs
    /\ exists p, extract_failing_test_details two_failures_report
                 = Ok (nl ++ flat (map block fs), p).
Proof.
  eexists. split; [vm_compute; reflexivity|].
  apply (display_is_blocks_in_order two_failures_report
           [ test_record "failed" "tests/test_one.py::test_alpha"
               (crash_record "tests/test_one.py" 7 "assert 1 == 2");
             test_record "failed" "tests/test_two.py::test_beta"
               (crash_record "tests/test_two.py" 12 "assert not True") ]);
    vm_compute; reflexivity.
Defined.

(** C10: the second component of the pair is one optional path.  Whenever
    the extractor returns, it is [None] if no test of the report failed, and
    it is [Path(crash.path)] of the last failed record of the report
    otherwise, the paths of the earlier failing tests being overwritten; and
    [run], once the summary is extracted, issues no lookup command when that
    component is [None] and otherwise exactly one, built from this one path,
    however many tests failed. *)
Theorem failing_test_path_is_last
  (details : value) (tests : list value) (s : string) (p : option Path) :
  tests_of details = Ok tests ->
  extract_failing_test_details details = Ok (s, p) ->
  (Forall not_failed tests -> p = None)
  /\ (forall before test after,
        tests = (before ++ test :: after)%list ->
        is_failed test -> Forall not_failed after ->
        exists crash crash_path q,
          crash_of test = Ok crash
          /\ getitem crash "path" = Ok crash_path
          /\ Path_of crash_path = Ok q
          /\ p = Some q)
  /\ (forall summary,
        extract_test_run_details details = Ok summary ->
        run details
        = Ok (match p with
              | None => mkRun [] 0
              | Some q => mkRun ["symbex test_find_minimum_value -f " ++ as_posix q] 1
              end)).
Proof.
  intros Ht Hret.
  pose proof Hret as Hclosed.
  apply extract_failing_test_details_returns in Hclosed.
  destruct Hclosed as (tests' & fs & Ht' & Hfs & Hs & Hp).
  rewrite Ht in Ht'. injection Ht' as <-.
  split; [|split].
  - intros Hall. rewrite (failures_not_failed tests Hall) in Hfs.
    injection Hfs as <-. exact Hp.
  - intros before test after -> Hfailed Hafter.
    rewrite failures_app in Hfs.
    destruct (failures before) as [a|e]; cbn [bind] in Hfs; [|discriminate].
    cbn [failures] in Hfs. rewrite (failures_not_failed after Hafter) in Hfs.
    destruct (failure_of test) as [view|e] eqn:Hview; cbn [bind] in Hfs; [|discriminate].
    destruct (failure_of_failed test view Hfailed Hview) as [f ->].
    injection Hfs as <-.
    destruct (failure_of_fields test f Hview) as (_ & _ & crash & cp & Hc & Hcp & Hq & _).
    exists crash, cp, (failure_path f). repeat split; try assumption.
    rewrite Hp. unfold last_path. rewrite map_app. cbn [map]. apply last_last.
  - intros summary Hsum. unfold run. rewrite Hsum, Hret. cbn [bind].
    rewrite Hs, display_empty_iff_no_path, <- Hp.
    destruct p; reflexivity.
Qed.

Lemma failing_test_path_is_last_witness :
  tests_of two_failures_report
    = Ok [ test_record "failed" "tests/test_one.py::test_alpha"
             (crash_record "tests/test_one.py" 7 "assert 1 == 2");
           test_record "failed" "tests/test_two.py::test_beta"
             (crash_record "tests/test_two.py" 12 "assert not True") ]
  /\ extract_failing_test_details two_failures_report
     = Ok (two_failures_display, Some (parse_path "tests/test_two.py"))
  /\ run two_failures_report
     = Ok (mkRun ["symbex test_find_minimum_value -f tests/test_two.py"] 1).
Proof.
  split; [reflexivity|]. split; [reflexivity|].
  refine (proj2 (proj2 (failing_test_path_is_last two_failures_report _
                          two_failures_display
                          (Some (parse_path "tests/test_two.py")) _ _)) _ _);
    reflexivity.
Defined.

(** ** The path elider *)

Lemma split_slash_no_slash (s : string) :
  Forall (fun x => has_char slash x = false) (split_slash s).
Proof.
  induction s as [|c rest IH]; cbn [split_slash].
  - constructor; [reflexivity | constructor].
  - destruct (Ascii.eqb c slash) eqn:Hc.
    + constructor; [reflexivity | exact IH].
    + destruct (split_slash rest) as [|h t].
      * constructor; [|constructor]. cbn [has_char].
        now rewrite Ascii.eqb_sym, Hc.
      * inversion IH as [|? ? Hh Ht]; subst. constructor; [|exact Ht].
        cbn [has_char]. now rewrite Ascii.eqb_sym, Hc, Hh.
Qed.

Lemma parse_path_good (s : string) :
  Forall (fun x => good_segment x = true) (tail (parse_path s)).
Proof.
  unfold parse_path. destruct (splitroot s) as [r rel]. cbn [tail].
  apply Forall_forall. intros x Hx. apply filter_In in Hx. destruct Hx as [Hin Hkeep].
  pose proof (split_slash_no_slash rel) as Hall.
  rewrite Forall_forall in Hall. unfold good_segment.
  now rewrite Hkeep, (Hall x Hin).
Qed.

Lemma Forall_skipn {A : Type} (P : A -> Prop) (k : nat) (l : list A) :
  Forall P l -> Forall P (skipn k l).
Proof.
  revert l. induction k as [|k IH]; intros l Hl; [exact Hl|].
  destruct l as [|x l]; [constructor|]. inversion Hl; subst. now apply IH.
Qed.

(** For a depth of at least one that is less than the number of parts, the
    slice [parts[-levels:]] is the last [levels] parts. *)
Lemma slice_last_lastn {A : Type} (n : Z) (xs : list A) :
  (1 <= n < Z.of_nat (length xs))%Z -> slice_last n xs = lastn (Z.to_nat n) xs.
Proof.
  intros Hn. unfold slice_last, lastn.
  destruct (Z.ltb_spec (- n) 0); [|lia]. f_equal. lia.
Qed.

(** The last parts of a path, fewer than all of them, are segments and not
    the root. *)
Lemma lastn_parts_good (p : Path) (k : nat) :
  Forall (fun x => good_segment x = true) (tail p) ->
  (k < length (parts p))%nat ->
  Forall (fun x => good_segment x = true) (lastn k (parts p)).
Proof.
  intros Hgood Hk. unfold parts, lastn in *.
  destruct (String.eqb (root p) EmptyString).
  - now apply Forall_skipn.
  - cbn [length] in *.
    replace (S (length (tail p)) - k)%nat with (S (length (tail p) - k)) by lia.
    cbn [skipn]. now apply Forall_skipn.
Qed.

Lemma no_slash_ends (x : string) : has_char slash x = false -> ends_with_slash x = false.
Proof.
  induction x as [|c x IH]; [reflexivity|]. cbn [has_char ends_with_slash].
  intros H. apply orb_false_iff in H. destruct H as [Hc Hx].
  destruct x; [now rewrite Ascii.eqb_sym | now apply IH].
Qed.

Lemma ends_with_slash_app (a b : string) :
  b <> EmptyString -> ends_with_slash (a ++ b) = ends_with_slash b.
Proof.
  intros Hb. induction a as [|c a IH]; [reflexivity|].
  cbn [append ends_with_slash]. destruct (a ++ b) eqn:Hab; [|exact IH].
  destruct a; [contradiction | discriminate].
Qed.

Lemma good_segment_facts (x : string) :
  good_segment x = true ->
  x <> EmptyString /\ has_char slash x = false /\ starts_with_slash x = false
  /\ keep_segment x = true.
Proof.
  unfold good_segment, keep_segment. intros H.
  apply andb_true_iff in H. destruct H as [Hkeep Hslash].
  apply negb_true_iff in Hslash.
  pose proof Hkeep as Hk. apply andb_true_iff in Hk. destruct Hk as [Hne _].
  apply negb_true_iff in Hne. apply String.eqb_neq in Hne.
  repeat split; try assumption.
  destruct x as [|c x]; [reflexivity|]. cbn [has_char starts_with_slash] in *.
  apply orb_false_iff in Hslash. now rewrite Ascii.eqb_sym.
Qed.

(** [posixpath.join] on good segments puts one slash before each. *)
Lemma posix_join_good (segs : list string) (acc : string) :
  Forall (fun x => good_segment x = true) segs ->
  acc <> EmptyString -> ends_with_slash acc = false ->
  posix_join acc segs = acc ++ flat (map (fun x => sep ++ x) segs).
Proof.
  unfold posix_join. intros Hgood. revert acc.
  induction Hgood as [|x segs Hx _ IH]; intros acc Hne Hend.
  - cbn. now rewrite append_nil_r.
  - destruct (good_segment_facts x Hx) as (Hxne & Hxs & Hstart & _).
    cbn [fold_left map flat fold_right]. unfold join_step at 2.
    rewrite Hstart, Hend.
    destruct (String.eqb_spec acc EmptyString) as [|_]; [contradiction|].
    cbn [orb]. rewrite IH.
    + fold (flat (map (fun x => sep ++ x) segs)). now rewrite !append_assoc.
    + destruct acc; [contradiction | discriminate].
    + rewrite ends_with_slash_app.
      * rewrite ends_with_slash_app by exact Hxne. now apply no_slash_ends.
      * unfold sep. discriminate.
Qed.

Lemma split_slash_single (x : string) : has_char slash x = false -> split_slash x = [x].
Proof.
  induction x as [|c x IH]; [reflexivity|]. cbn [has_char split_slash]. intros H.
  apply orb_false_iff in H. destruct H as [Hc Hx].
  rewrite Ascii.eqb_sym, Hc, (IH Hx). reflexivity.
Qed.

Lemma split_slash_cons (x rest : string) :
  has_char slash x = false -> split_slash (x ++ sep ++ rest) = x :: split_slash rest.
Proof.
  induction x as [|c x IH]; intros H.
  - cbn. reflexivity.
  - cbn [has_char] in H. apply orb_false_iff in H. destruct H as [Hc Hx].
    cbn [append split_slash]. rewrite Ascii.eqb_sym, Hc, (IH Hx). reflexivity.
Qed.

Lemma split_slash_joined (segs : list string) (x : string) :
  has_char slash x = false ->
  Forall (fun y => good_segment y = true) segs ->
  split_slash (x ++ flat (map (fun y => sep ++ y) segs)) = x :: segs.
Proof.
  intros Hx Hgood. revert x Hx.
  induction Hgood as [|y segs Hy _ IH]; intros x Hx.
  - cbn. rewrite append_nil_r. now apply split_slash_single.
  - destruct (good_segment_facts y Hy) as (_ & Hys & _).
    cbn [map flat fold_right]. fold (flat (map (fun y => sep ++ y) segs)).
    rewrite (append_assoc sep y). rewrite split_slash_cons by exact Hx.
    now rewrite IH.
Qed.

Lemma filter_keep_good (segs : list string) :
  Forall (fun y => good_segment y = true) segs -> filter keep_segment segs = segs.
Proof.
  intros H. apply forallb_filter_id. apply forallb_forall. intros y Hy.
  rewrite Forall_forall in H. now destruct (good_segment_facts y (H y Hy)) as (_ & _ & _ & ?).
Qed.

(** The path built from the marker and good segments is written as the
    marker, a slash and the segments joined by slashes. *)
Lemma marker_path (segs : list string) :
  Forall (fun y => good_segment y = true) segs -> segs <> [] ->
  as_posix (Path_of_strings "<...>" segs) = "<...>/" ++ join sep segs.
Proof.
  intros Hgood Hne. unfold Path_of_strings.
  rewrite posix_join_good by (assumption || discriminate || reflexivity).
  unfold parse_path. cbn [append splitroot]. cbn [Ascii.eqb Bool.eqb slash].
  change (String "<" (String "." (String "." (String "." (String ">"
            (flat (map (fun x => sep ++ x) segs)))))))
    with ("<...>" ++ flat (map (fun x => sep ++ x) segs)).
  rewrite split_slash_joined by (reflexivity || assumption).
  cbn [filter]. change (keep_segment "<...>") with true. cbv iota.
  rewrite filter_keep_good by assumption.
  unfold as_posix. cbn [root tail]. cbn [String.eqb].
  destruct segs as [|y rest]; [contradiction|]. reflexivity.
Qed.

(** X1: for a depth [levels] of at least one, [path_to_string] returns the path
    as it is when it has at most [levels] parts, and otherwise the marker
    followed by exactly its last [levels] parts, joined by slashes. *)
Lemma path_to_string_elides (s : string) (levels : Z) :
  (1 <= levels)%Z ->
  let p := parse_path s in
  ((Z.of_nat (length (parts p)) <= levels)%Z -> path_to_string p levels = as_posix p)
  /\ ((levels < Z.of_nat (length (parts p)))%Z ->
      path_to_string p levels = "<...>/" ++ join sep (lastn (Z.to_nat levels) (parts p))).
Proof.
  intros Hlevels p. unfold path_to_string. split; intros Hlen.
  - destruct (Z.gtb_spec (Z.of_nat (length (parts p))) levels); [lia | reflexivity].
  - destruct (Z.gtb_spec (Z.of_nat (length (parts p))) levels); [|lia].
    rewrite slice_last_lastn by lia. apply marker_path.
    + apply lastn_parts_good; [apply parse_path_good | lia].
    + intros Hnil. apply (f_equal (@length string)) in Hnil.
      unfold lastn in Hnil. rewrite length_skipn in Hnil. cbn in Hnil. lia.
Qed.

(** C6, at depth zero: the slice [parts[-0:]] is the whole tuple of parts and
    not its last zero elements, so a relative path keeps every segment behind
    the marker, where the claim has the marker followed by the last zero
    segments, and an absolute path, whose root restarts the joined path,
    comes back whole and without the marker. *)
Theorem path_to_string_depth_zero :
  path_to_string (parse_path "a/b") 0 = "<...>/a/b"
  /\ lastn 0 (parts (parse_path "a/b")) = []
  /\ slice_last 0 (parts (parse_path "a/b")) = ["a"; "b"]
  /\ path_to_string (parse_path "/a/b") 0 = "/a/b".
Proof. repeat split; reflexivity. Qed.

(** ** The worked examples of the test suite and of the display *)

Example path_to_string_short :
  path_to_string (parse_path "a/b/c/d") 4 = "a/b/c/d".
Proof. reflexivity. Qed.

Example path_to_string_long :
  path_to_string (parse_path "/home/user/project/tests/test_module.py") 4
  = "<...>/user/project/tests/test_module.py".
Proof. reflexivity. Qed.

Example path_to_string_normalises :
  path_to_string (parse_path "a//b/./c/") 4 = "a/b/c".
Proof. reflexivity. Qed.

Example test_extract_details :
  extract_details
    (VDict [("key1", VStr "value1"); ("key2", VStr "value2"); ("key3", VStr "value3")])
  = Ok "Details: value1 key1, value2 key2, value3 key3".
Proof. reflexivity. Qed.

Example test_extract_test_run_details :
  extract_test_run_details
    (VDict [("summary", VDict [("passed", VInt 2); ("total", VInt 2); ("collected", VInt 2)])])
  = Ok "Details: 2 passed, 2 total, 2 collected"
  /\ extract_test_run_details
       (VDict [("summary", VDict [("failed", VInt 1); ("total", VInt 3); ("collected", VInt 3)])])
     = Ok "Details: 1 failed, 3 total, 3 collected".
Proof. split; reflexivity. Qed.

Example extract_one_failure :
  extract_failing_test_details one_failure_report
  = Ok (nl ++ "  Name: test_module.py::test_function" ++ nl
           ++ "  Path: <...>/home/user/project/test_module.py" ++ nl
           ++ "  Line number: 10" ++ nl
           ++ "  Message: AssertionError" ++ nl,
        Some (parse_path "/home/user/project/test_module.py")).
Proof. reflexivity. Qed.

Example extract_two_failures :
  extract_failing_test_details two_failures_report
  = Ok (two_failures_display, Some (parse_path "tests/test_two.py")).
Proof. reflexivity. Qed.

Example extract_raises_on_odd_reports :
  extract_failing_test_details (VDict []) = Raise (KeyError "tests")
  /\ extract_failing_test_details (VDict [("tests", VNone)]) = Raise TypeError
  /\ extract_failing_test_details (VDict [("tests", VList [VDict []])])
     = Raise (KeyError "outcome")
  /\ extract_failing_test_details (VDict [("tests", VStr "x")]) = Raise TypeError
  /\ extract_failing_test_details missing_crash_report = Raise (KeyError "crash")
  /\ extract_failing_test_details missing_call_report = Raise (KeyError "call")
  /\ extract_test_run_details missing_summary_report = Raise (KeyError "summary")
  /\ extract_details (VList []) = Raise AttributeError.
Proof. repeat split; reflexivity. Qed.

Example py_str_values :
  py_str (VInt (-12)) = "-12"
  /\ py_str VNone = "None"
  /\ py_str (VList [VStr "a"; VInt 1; VBool true]) = "['a', 1, True]"
  /\ py_str (VDict [("k", VStr "it's")])
     = "{'k': " ++ String quote2 ("it's" ++ String quote2 "}").
Proof. repeat split; reflexivity. Qed.

(** * Further properties of the extractors *)

(** ** Failed and not failed records *)

Lemma failed_not_failed_exclusive (test : value) :
  is_failed test -> not_failed test -> False.
Proof.
  intros (o1 & H1 & Hf) (o2 & H2 & Hn). rewrite H1 in H2.
  injection H2 as <-. congruence.
Qed.

Lemma failure_of_cases (test : value) (view : option failure) :
  failure_of test = Ok view ->
  (view = None /\ not_failed test) \/ (exists f, view = Some f /\ is_failed test).
Proof.
  intros Hview. destruct view as [f|].
  - right. exists f. split; [reflexivity|]. now apply (failure_of_fields test f).
  - left. split; [reflexivity|]. unfold failure_of in Hview. unfold not_failed.
    destruct (getitem test "outcome") as [outcome|e]; cbn [bind] in Hview; [|discriminate].
    exists outcome. split; [reflexivity|].
    destruct (eq_str outcome "failed") eqn:Hf; [|reflexivity].
    exfalso.
    destruct (getitem test "nodeid") as [nodeid|e]; cbn [bind] in Hview; [|discriminate].
    destruct (getitem test "call") as [call|e]; cbn [bind] in Hview; [|discriminate].
    destruct (getitem call "crash") as [crash|e]; cbn [bind] in Hview; [|discriminate].
    destruct (getitem crash "path") as [cp|e]; cbn [bind] in Hview; [|discriminate].
    destruct (Path_of cp) as [path|e]; cbn [bind] in Hview; [|discriminate].
    destruct (getitem crash "lineno") as [lineno|e]; cbn [bind] in Hview; [|discriminate].
    destruct (getitem crash "message") as [message|e]; cbn [bind] in Hview; discriminate.
Qed.

(** The views of a list of records are empty exactly when no record failed,
    and otherwise some record has the outcome [failed]. *)
Lemma failures_nil_or_failed (tests : list value) (fs : list failure) :
  failures tests = Ok fs ->
  (fs = [] /\ Forall not_failed tests) \/ (fs <> [] /\ Exists is_failed tests).
Proof.
  revert fs. induction tests as [|t rest IH]; intros fs Hfs.
  - injection Hfs as <-. left. split; [reflexivity | constructor].
  - cbn [failures] in Hfs.
    destruct (failure_of t) as [view|e] eqn:Hview; cbn [bind] in Hfs; [|discriminate].
    destruct (failures rest) as [later|e]; cbn [bind] in Hfs; [|discriminate].
    injection Hfs as <-.
    destruct (failure_of_cases t view Hview) as [[-> Hnf] | (f & -> & Hf)].
    + destruct (IH later eq_refl) as [[-> Hall] | [Hne Hex]].
      * left. split; [reflexivity | now constructor].
      * right. split; [exact Hne | now apply Exists_cons_tl].
    + right. split; [discriminate | now apply Exists_cons_hd].
Qed.

Lemma exists_failed_not_all_passed (tests : list value) :
  Exists is_failed tests -> Forall not_failed tests -> False.
Proof.
  intros Hex Hall. rewrite Exists_exists in Hex. destruct Hex as (t & Hin & Hf).
  rewrite Forall_forall in Hall. exact (failed_not_failed_exclusive t Hf (Hall t Hin)).
Qed.

Lemma last_path_none_iff (fs : list failure) : last_path fs None = None <-> fs = [].
Proof.
  split; [|now intros ->]. destruct fs as [|f fs]; [reflexivity|].
  unfold last_path. cbn [map]. rewrite last_cons.
  destruct (last_path_some fs (failure_path f)) as [q Hq]. unfold last_path in Hq.
  rewrite Hq. discriminate.
Qed.

(** The display of the views [fs] of the tests is the bare newline exactly
    when no test failed, and exactly when no path is left. *)
Lemma display_empty_iff_all_passed (tests : list value) (fs : list failure) :
  failures tests = Ok fs ->
  (is_failing_test_details_empty (nl ++ flat (map block fs)) = true
     <-> Forall not_failed tests)
  /\ (is_failing_test_details_empty (nl ++ flat (map block fs)) = true
      <-> last_path fs None = None).
Proof.
  intros Hfs. rewrite display_empty_iff_no_path.
  pose proof (last_path_none_iff fs) as Hnone.
  destruct (failures_nil_or_failed tests fs Hfs) as [[-> Hall] | [Hne Hex]].
  - split; split; auto.
  - destruct (last_path fs None) as [q|] eqn:Hlast.
    + split; split; try discriminate.
      intros Hall. exfalso. exact (exists_failed_not_all_passed tests Hex Hall).
    + exfalso. apply Hne. now apply Hnone.
Qed.

(** X8: the single newline is an unambiguous marker: whenever the extractor
    returns, the emptiness check accepts its string exactly when no record of
    the report has the outcome [failed], which is exactly when no path is
    returned. *)
Theorem sentinel_iff_no_failed_record
  (details : value) (tests : list value) (s : string) (p : option Path) :
  tests_of details = Ok tests ->
  extract_failing_test_details details = Ok (s, p) ->
  (is_failing_test_details_empty s = true <-> Forall not_failed tests)
  /\ (is_failing_test_details_empty s = true <-> p = None).
Proof.
  intros Ht Hret. apply extract_failing_test_details_returns in Hret.
  destruct Hret as (tests' & fs & Ht' & Hfs & -> & ->).
  rewrite Ht in Ht'. injection Ht' as <-.
  now apply display_empty_iff_all_passed.
Qed.

Lemma sentinel_iff_no_failed_record_witness :
  tests_of all_passed_report
    = Ok [ test_record "passed" "tests/test_one.py::test_alpha" VNone;
           VDict [("outcome", VStr "passed");
                  ("nodeid", VStr "tests/test_two.py::test_beta")] ]
  /\ extract_failing_test_details all_passed_report = Ok (nl, None)
  /\ (is_failing_test_details_empty nl = true <-> @None Path = None).
Proof.
  split; [reflexivity|]. split; [reflexivity|].
  refine (proj2 (sentinel_iff_no_failed_record all_passed_report _ nl None _ _));
    reflexivity.
Defined.

(** X13: the exit code of [run]: whenever [run] gets through the report, it
    exits with 0 and looks nothing up when no record failed, and it exits
    with 1 after exactly one lookup command when some record failed. *)
Theorem run_exit_code (details : value) (tests : list value) (out : run_outcome) :
  tests_of details = Ok tests ->
  run details = Ok out ->
  (Forall not_failed tests /\ commands out = [] /\ return_code out = 0%Z)
  \/ (Exists is_failed tests /\ length (commands out) = 1%nat /\ return_code out = 1%Z).
Proof.
  intros Ht Hrun. unfold run in Hrun.
  destruct (extract_test_run_details details) as [summary|e]; cbn [bind] in Hrun;
    [|discriminate].
  destruct (extract_failing_test_details details) as [[s p]|e] eqn:Hret;
    cbn [bind] in Hrun; [|discriminate].
  apply extract_failing_test_details_returns in Hret.
  destruct Hret as (tests' & fs & Ht' & Hfs & -> & _).
  rewrite Ht in Ht'. injection Ht' as <-.
  destruct (display_empty_iff_all_passed tests fs Hfs) as [Hall _].
  destruct (is_failing_test_details_empty (nl ++ flat (map block fs))) eqn:Hempty;
    cbn [negb] in Hrun; injection Hrun as <-; cbn [commands return_code].
  - left. repeat split. now apply Hall.
  - right. repeat split.
    destruct (failures_nil_or_failed tests fs Hfs) as [[_ Hnf] | [_ Hex]]; [|exact Hex].
    apply Hall in Hnf. discriminate.
Qed.

Lemma run_exit_code_witness :
  run one_failure_report
    = Ok (mkRun ["symbex test_find_minimum_value -f /home/user/project/test_module.py"] 1)
  /\ ((Forall not_failed
         [ test_record "failed" "test_module.py::test_function"
             (crash_record "/home/user/project/test_module.py" 10 "AssertionError");
           test_record "passed" "test_module.py::test_function2"
             (crash_record "/home/user/project/test_module.py" 20 "AssertionError") ]
       /\ [ "symbex test_find_minimum_value -f /home/user/project/test_module.py" ] = []
       /\ 1%Z = 0%Z)
      \/ (Exists is_failed
            [ test_record "failed" "test_module.py::test_function"
                (crash_record "/home/user/project/test_module.py" 10 "AssertionError");
              test_record "passed" "test_module.py::test_function2"
                (crash_record "/home/user/project/test_module.py" 20 "AssertionError") ]
          /\ length [ "symbex test_find_minimum_value -f /home/user/project/test_module.py" ]
             = 1%nat
          /\ 1%Z = 1%Z)).
Proof.
  split; [reflexivity|].
  exact (run_exit_code one_failure_report _
           (mkRun ["symbex test_find_minimum_value -f /home/user/project/test_module.py"] 1)
           eq_refl eq_refl).
Defined.

(** ** Exceptions of the failing-test extractor *)

(** X9: the first record that cannot be read decides the outcome: when the
    records before it are read without error, the extractor raises the
    exception of that record, whatever follows it in the report, and returns
    nothing of what it had built up. *)
Theorem first_unreadable_record_decides
  (details : value) (before after : list value) (test : value)
  (earlier : list failure) (e : exn) :
  tests_of details = Ok (before ++ test :: after)%list ->
  failures before = Ok earlier ->
  failure_of test = Raise e ->
  extract_failing_test_details details = Raise e.
Proof.
  intros Ht Hbefore Htest.
  rewrite extract_failing_test_details_closed, Ht. cbn [bind].
  rewrite failures_app, Hbefore. cbn [bind failures]. rewrite Htest. reflexivity.
Qed.

Lemma first_unreadable_record_decides_witness :
  failure_of (VDict [("nodeid", VStr "tests/test_three.py::test_gamma")])
    = Raise (KeyError "outcome")
  /\ extract_failing_test_details
       (report_of []
          [ test_record "failed" "tests/test_one.py::test_alpha"
              (crash_record "tests/test_one.py" 7 "assert 1 == 2");
            VDict [("nodeid", VStr "tests/test_three.py::test_gamma")];
            test_record "passed" "tests/test_two.py::test_beta" VNone ])
     = Raise (KeyError "outcome").
Proof.
  split; [reflexivity|].
  apply (first_unreadable_record_decides _
           [ test_record "failed" "tests/test_one.py::test_alpha"
               (crash_record "tests/test_one.py" 7 "assert 1 == 2") ]
           [ test_record "passed" "tests/test_two.py::test_beta" VNone ]
           (VDict [("nodeid", VStr "tests/test_three.py::test_gamma")])
           [ mkFailure (VStr "tests/test_one.py::test_alpha")
               (parse_path "tests/test_one.py") (VInt 7) (VStr "assert 1 == 2") ]);
    reflexivity.
Defined.

(** X10: the fields of a failed record are read in the order nodeid, call,
    crash, path, lineno, message: with the crash record at hand, a missing
    path raises [KeyError] for [path] whatever else is missing, a path that
    is not a string raises [TypeError], and a missing line number or message
    raises [KeyError] for that key. *)
Theorem crash_fields_are_required
  (details : value) (before after : list value) (test : value)
  (earlier : list failure) (nodeid : value) (crash : list (string * value)) :
  tests_of details = Ok (before ++ test :: after)%list ->
  failures before = Ok earlier ->
  is_failed test ->
  getitem test "nodeid" = Ok nodeid ->
  crash_of test = Ok (VDict crash) ->
  (lookup "path" crash = None ->
     extract_failing_test_details details = Raise (KeyError "path"))
  /\ (forall v, lookup "path" crash = Some v -> (forall s, v <> VStr s) ->
        extract_failing_test_details details = Raise TypeError)
  /\ (forall s, lookup "path" crash = Some (VStr s) -> lookup "lineno" crash = None ->
        extract_failing_test_details details = Raise (KeyError "lineno"))
  /\ (forall s lineno, lookup "path" crash = Some (VStr s) ->
        lookup "lineno" crash = Some lineno -> lookup "message" crash = None ->
        extract_failing_test_details details = Raise (KeyError "message")).
Proof.
  intros Ht Hbefore (outcome & Hout & Hfailed) Hnodeid Hcrash.
  assert (Hview : forall e,
             (crash_path <- getitem (VDict crash) "path" ;;
              path <- Path_of crash_path ;;
              lineno <- getitem (VDict crash) "lineno" ;;
              message <- getitem (VDict crash) "message" ;;
              Ok (Some (mkFailure nodeid path lineno message))) = Raise e ->
             extract_failing_test_details details = Raise e).
  { intros e He.
    rewrite extract_failing_test_details_closed, Ht. cbn [bind].
    rewrite failures_app, Hbefore. cbn [bind failures].
    enough (Hraise : failure_of test = Raise e) by (rewrite Hraise; reflexivity).
    unfold failure_of. rewrite Hout. cbn [bind]. rewrite Hfailed, Hnodeid. cbn [bind].
    unfold crash_of in Hcrash.
    destruct (getitem test "call") as [call|e1]; cbn [bind] in *; [|discriminate].
    rewrite Hcrash. cbn [bind]. exact He. }
  split; [|split; [|split]].
  - intros Hp. apply Hview. cbn [getitem]. rewrite Hp. reflexivity.
  - intros v Hp Hv. apply Hview. cbn [getitem]. rewrite Hp. cbn [bind].
    destruct v; try reflexivity. exfalso. now apply (Hv s).
  - intros s Hp Hl. apply Hview. cbn [getitem]. rewrite Hp. cbn [bind Path_of].
    rewrite Hl. reflexivity.
  - intros s lineno Hp Hl Hm. apply Hview. cbn [getitem]. rewrite Hp. cbn [bind Path_of].
    rewrite Hl. cbn [bind]. rewrite Hm. reflexivity.
Qed.

Lemma crash_fields_are_required_witness :
  tests_of test_suite_report
    = Ok ([] ++
          VDict [("outcome", VStr "failed");
                 ("nodeid", VStr "test_module.py::test_function");
                 ("call", VDict [("crash",
                    VDict [("lineno", VInt 10); ("message", VStr "AssertionError")])])]
          :: [VDict [("outcome", VStr "passed");
                     ("nodeid", VStr "test_module.py::test_function2");
                     ("call", VDict [("crash",
                        VDict [("lineno", VInt 20); ("message", VStr "AssertionError")])])]])%list
  /\ extract_failing_test_details test_suite_report = Raise (KeyError "path").
Proof.
  split; [reflexivity|].
  refine (proj1 (crash_fields_are_required test_suite_report [] _ _ []
                   (VStr "test_module.py::test_function")
                   [("lineno", VInt 10); ("message", VStr "AssertionError")]
                   eq_refl eq_refl _ eq_refl eq_refl) eq_refl).
  exists (VStr "failed"). split; reflexivity.
Defined.

(** X11: what [tests] may be besides a list: an empty mapping or an empty string
    is read as no test at all, a mapping or a string that is not empty raises
    [TypeError] at its first element, which is a string and cannot be
    subscripted by a key, and [None], a number or a truth value raises
    [TypeError] because it cannot be iterated. *)
Theorem tests_of_other_types (details tests : value) :
  getitem details "tests" = Ok tests ->
  (tests = VList [] \/ tests = VDict [] \/ tests = VStr EmptyString ->
     extract_failing_test_details details = Ok (nl, None))
  /\ ((exists k v d, tests = VDict ((k, v) :: d)) \/ (exists c s, tests = VStr (String c s))
      \/ tests = VNone \/ (exists b, tests = VBool b) \/ (exists n, tests = VInt n)
      \/ (exists f, tests = VFloat f) ->
      extract_failing_test_details details = Raise TypeError).
Proof.
  intros Hget. unfold extract_failing_test_details. rewrite Hget. cbn [bind]. split.
  - intros [-> | [-> | ->]]; reflexivity.
  - intros [(k & v & d & ->) | [(c & s & ->) | [-> | [(b & ->) | [(n & ->) | (f & ->)]]]]];
      reflexivity.
Qed.

Lemma tests_of_other_types_witness :
  getitem (VDict [("tests", VDict [("outcome", VStr "failed")])]) "tests"
    = Ok (VDict [("outcome", VStr "failed")])
  /\ extract_failing_test_details (VDict [("tests", VDict [("outcome", VStr "failed")])])
     = Raise TypeError.
Proof.
  split; [reflexivity|].
  apply (proj2 (tests_of_other_types (VDict [("tests", VDict [("outcome", VStr "failed")])])
                  (VDict [("outcome", VStr "failed")]) eq_refl)).
  left. exists "outcome", (VStr "failed"), []. reflexivity.
Defined.

(** ** Reports put together *)

Lemma flat_append (xs ys : list string) : flat (xs ++ ys)%list = flat xs ++ flat ys.
Proof.
  induction xs as [|x xs IH]; cbn [app flat fold_right]; [reflexivity|].
  fold (flat (xs ++ ys)%list). fold (flat xs). now rewrite IH, append_assoc.
Qed.

Lemma last_path_cons (f : failure) (fs : list failure) (init : option Path) :
  last_path (f :: fs) init = last_path fs (Some (failure_path f)).
Proof. unfold last_path. cbn [map]. apply last_cons. Qed.

Lemma last_path_app (fs1 fs2 : list failure) (init : option Path) :
  last_path (fs1 ++ fs2)%list init = last_path fs2 (last_path fs1 init).
Proof.
  revert init. induction fs1 as [|f fs1 IH]; intros init; [reflexivity|].
  cbn [app]. now rewrite !last_path_cons, IH.
Qed.

Lemma last_path_init (fs : list failure) (init : option Path) :
  last_path fs init
  = match last_path fs None with
    | Some q => Some q
    | None => init
    end.
Proof.
  destruct fs as [|f fs]; [reflexivity|]. rewrite !last_path_cons.
  destruct (last_path_some fs (failure_path f)) as [q ->]. reflexivity.
Qed.

(** X12: extraction goes along with putting test lists one after the other: the
    display of the joint report is the display of the first followed by the
    display of the second without its leading newline, and the path is the
    one of the second report when it has one and the one of the first
    otherwise. *)
Theorem extract_of_concatenated_tests
  (first second both : value) (tests1 tests2 : list value)
  (s1 s2 : string) (p1 p2 : option Path) :
  getitem first "tests" = Ok (VList tests1) ->
  getitem second "tests" = Ok (VList tests2) ->
  getitem both "tests" = Ok (VList (tests1 ++ tests2)) ->
  extract_failing_test_details first = Ok (s1, p1) ->
  extract_failing_test_details second = Ok (s2, p2) ->
  exists blocks2,
    s2 = nl ++ blocks2
    /\ extract_failing_test_details both
       = Ok (s1 ++ blocks2, match p2 with Some q => Some q | None => p1 end).
Proof.
  intros H1 H2 H12 Hr1 Hr2.
  apply extract_failing_test_details_returns in Hr1, Hr2.
  destruct Hr1 as (t1 & fs1 & Ht1 & Hfs1 & -> & ->).
  destruct Hr2 as (t2 & fs2 & Ht2 & Hfs2 & -> & ->).
  unfold tests_of in Ht1, Ht2. rewrite H1 in Ht1. rewrite H2 in Ht2.
  cbn [bind iterate] in Ht1, Ht2. injection Ht1 as <-. injection Ht2 as <-.
  exists (flat (map block fs2)). split; [reflexivity|].
  apply extract_failing_test_details_returns.
  exists (tests1 ++ tests2)%list, (fs1 ++ fs2)%list.
  split; [unfold tests_of; rewrite H12; reflexivity|].
  split; [rewrite failures_app, Hfs1, Hfs2; reflexivity|].
  split.
  - rewrite map_app, flat_append, append_assoc. reflexivity.
  - rewrite last_path_app. symmetry. apply last_path_init.
Qed.

Lemma extract_of_concatenated_tests_witness :
  extract_failing_test_details one_failure_report
    = Ok (nl ++ "  Name: test_module.py::test_function" ++ nl
             ++ "  Path: <...>/home/user/project/test_module.py" ++ nl
             ++ "  Line number: 10" ++ nl
             ++ "  Message: AssertionError" ++ nl,
          Some (parse_path "/home/user/project/test_module.py"))
  /\ extract_failing_test_details all_passed_report = Ok (nl, None)
  /\ exists blocks2,
       nl = nl ++ blocks2
       /\ extract_failing_test_details
            (report_of []
               [ test_record "failed" "test_module.py::test_function"
                   (crash_record "/home/user/project/test_module.py" 10 "AssertionError");
                 test_record "passed" "test_module.py::test_function2"
                   (crash_record "/home/user/project/test_module.py" 20 "AssertionError");
                 test_record "passed" "tests/test_one.py::test_alpha" VNone;
                 VDict [("outcome", VStr "passed");
                        ("nodeid", VStr "tests/test_two.py::test_beta")] ])
          = Ok ((nl ++ "  Name: test_module.py::test_function" ++ nl
                    ++ "  Path: <...>/home/user/project/test_module.py" ++ nl
                    ++ "  Line number: 10" ++ nl
                    ++ "  Message: AssertionError" ++ nl) ++ blocks2,
                Some (parse_path "/home/user/project/test_module.py")).
Proof.
  split; [reflexivity|]. split; [reflexivity|].
  exact (extract_of_concatenated_tests one_failure_report all_passed_report
           (report_of [] _) _ _ _ nl _ None eq_refl eq_refl eq_refl eq_refl eq_refl).
Defined.

(** ** The detail formatter on any value *)

Lemma prefix_append (a b : string) : String.prefix a (a ++ b) = true.
Proof.
  induction a as [|c a IH]; [now destruct b|].
  cbn [append String.prefix]. destruct (ascii_dec c c); [exact IH | contradiction].
Qed.

(** X5: the formatter returns exactly on mappings, with [AttributeError] on
    every other value; what it returns always starts with [Details: ], so it
    is never the empty string, and it has one rendered entry per entry of
    the mapping. *)
Theorem extract_details_returns (details : value) :
  (forall s, extract_details details = Ok s ->
     String.prefix "Details: " s = true /\ s <> EmptyString
     /\ exists m, details = VDict m /\ s = "Details: " ++ join ", " (map detail_entry m))
  /\ ((forall m, details <> VDict m) -> extract_details details = Raise AttributeError)
  /\ (forall m, details = VDict m -> exists s, extract_details details = Ok s).
Proof.
  split; [|split].
  - intros s Hs. destruct details; try discriminate Hs.
    rewrite extract_details_entries in Hs. injection Hs as <-.
    split; [exact (prefix_append "Details: " _)|]. split; [discriminate|].
    eexists. split; reflexivity.
  - intros Hm. destruct details; try reflexivity. exfalso. now apply (Hm entries).
  - intros m ->. rewrite extract_details_entries. eexists. reflexivity.
Qed.

(** X6: the summary extractor returns exactly when the report has a summary that
    is a mapping; the tests of the report play no part. *)
Theorem extract_test_run_details_returns (details : value) (s : string) :
  extract_test_run_details details = Ok s <->
  exists m, getitem details "summary" = Ok (VDict m)
            /\ s = "Details: " ++ join ", " (map detail_entry m).
Proof.
  unfold extract_test_run_details. split.
  - destruct (getitem details "summary") as [summary|e]; cbn [bind]; [|discriminate].
    intros Hs. destruct summary; try discriminate Hs.
    rewrite extract_details_entries in Hs. injection Hs as <-.
    eexists. split; reflexivity.
  - intros (m & -> & ->). cbn [bind]. apply extract_details_entries.
Qed.

(** ** The path elider and the paths it writes *)

Lemma join_flat (x : string) (segs : list string) :
  join sep (x :: segs) = x ++ flat (map (fun y => sep ++ y) segs).
Proof.
  revert x. induction segs as [|y segs IH]; intros x.
  - cbn. now rewrite append_nil_r.
  - change (join sep (x :: y :: segs)) with (x ++ sep ++ join sep (y :: segs)).
    rewrite IH. cbn [map flat fold_right]. fold (flat (map (fun y => sep ++ y) segs)).
    now rewrite (append_assoc sep y).
Qed.

Lemma good_join_relative (segs : list string) :
  Forall (fun x => good_segment x = true) segs -> starts_with_slash (join sep segs) = false.
Proof.
  intros Hgood. destruct Hgood as [|x segs Hx _]; [reflexivity|].
  rewrite join_flat. destruct (good_segment_facts x Hx) as (Hne & _ & Hstart & _).
  destruct x; [contradiction | exact Hstart].
Qed.

Lemma split_join (segs : list string) :
  Forall (fun x => good_segment x = true) segs ->
  filter keep_segment (split_slash (join sep segs)) = segs.
Proof.
  intros Hgood. destruct Hgood as [|x segs Hx Hsegs]; [reflexivity|].
  rewrite join_flat. destruct (good_segment_facts x Hx) as (_ & Hslash & _ & Hkeep).
  rewrite split_slash_joined by assumption.
  cbn [filter]. rewrite Hkeep. now rewrite filter_keep_good.
Qed.

Lemma splitroot_relative (s : string) :
  starts_with_slash s = false -> splitroot s = (EmptyString, s).
Proof. destruct s as [|c s]; [reflexivity|]. cbn. now intros ->. Qed.

Lemma splitroot_one_slash (rel : string) :
  starts_with_slash rel = false -> splitroot (sep ++ rel) = (sep, rel).
Proof. destruct rel as [|c rel]; [reflexivity|]. cbn. now intros ->. Qed.

Lemma splitroot_two_slashes (rel : string) :
  starts_with_slash rel = false -> splitroot ((sep ++ sep) ++ rel) = (sep ++ sep, rel).
Proof. destruct rel as [|c rel]; [reflexivity|]. cbn. now intros ->. Qed.

Lemma splitroot_roots (s : string) :
  fst (splitroot s) = EmptyString \/ fst (splitroot s) = sep
  \/ fst (splitroot s) = sep ++ sep.
Proof.
  destruct s as [|c1 [|c2 r2]]; cbn; auto.
  - destruct (Ascii.eqb c1 slash); auto.
  - destruct (Ascii.eqb c1 slash); auto. destruct (Ascii.eqb c2 slash); auto.
    destruct (starts_with_slash r2); auto.
Qed.

Lemma parse_path_wf (s : string) : wf_path (parse_path s).
Proof.
  split; [|apply parse_path_good].
  unfold parse_path. pose proof (splitroot_roots s) as H.
  destruct (splitroot s) as [r rel]. exact H.
Qed.

(** Writing a path and reading the text again gives the same path. *)
Lemma parse_as_posix (p : Path) : wf_path p -> parse_path (as_posix p) = p.
Proof.
  destruct p as [r t]. intros [Hroot Hgood]. cbn [root tail] in *.
  pose proof (good_join_relative t Hgood) as Hrel.
  pose proof (split_join t Hgood) as Hsplit.
  unfold as_posix. cbn [root tail].
  destruct Hroot as [-> | [-> | ->]].
  - cbn [String.eqb]. destruct t as [|x t]; [reflexivity|].
    unfold parse_path. rewrite (splitroot_relative _ Hrel), Hsplit. reflexivity.
  - change (String.eqb sep EmptyString) with false. cbv iota.
    unfold parse_path. rewrite (splitroot_one_slash _ Hrel), Hsplit. reflexivity.
  - change (String.eqb (sep ++ sep) EmptyString) with false. cbv iota.
    unfold parse_path. rewrite (splitroot_two_slashes _ Hrel), Hsplit. reflexivity.
Qed.

Lemma parts_tail_good (p : Path) (k : nat) :
  wf_path p -> (k < length (parts p))%nat ->
  Forall (fun x => good_segment x = true) (lastn k (parts p)).
Proof. intros [_ Hgood]. now apply lastn_parts_good. Qed.

Lemma lastn_length {A : Type} (k : nat) (xs : list A) :
  (k <= length xs)%nat -> length (lastn k xs) = k.
Proof. intros Hk. unfold lastn. rewrite length_skipn. lia. Qed.

(** The text of an elided path, read again. *)
Lemma parse_marker (segs : list string) :
  Forall (fun y => good_segment y = true) segs -> segs <> [] ->
  parse_path ("<...>/" ++ join sep segs) = mkPath EmptyString ("<...>" :: segs).
Proof.
  intros Hgood Hne. destruct segs as [|x segs]; [contradiction|].
  change ("<...>/" ++ join sep (x :: segs)) with (join sep ("<...>" :: x :: segs)).
  assert (Hall : Forall (fun y => good_segment y = true) ("<...>" :: x :: segs))
    by (constructor; [reflexivity | exact Hgood]).
  unfold parse_path.
  rewrite (splitroot_relative _ (good_join_relative _ Hall)), (split_join _ Hall).
  reflexivity.
Qed.

(** Long paths of any well-formed kind are elided to the marker and their
    last parts. *)
Lemma path_to_string_long_parts (p : Path) (levels : Z) :
  wf_path p -> (1 <= levels < Z.of_nat (length (parts p)))%Z ->
  path_to_string p levels = "<...>/" ++ join sep (lastn (Z.to_nat levels) (parts p)).
Proof.
  intros Hwf Hlevels. unfold path_to_string.
  destruct (Z.gtb_spec (Z.of_nat (length (parts p))) levels); [|lia].
  rewrite slice_last_lastn by lia. apply marker_path.
  - apply parts_tail_good; [exact Hwf | lia].
  - intros Hnil. apply (f_equal (@length string)) in Hnil.
    rewrite lastn_length in Hnil by lia. cbn in Hnil. lia.
Qed.

(** X2: what the elider writes can be read back: for a depth of at least one,
    the text of a path with at most [levels] parts is read as the very same
    path, and the text of a longer path is read as the relative path made of
    the marker and the last [levels] parts, so it has [levels + 1] parts and
    no root. *)
Theorem elided_text_read_back (s : string) (levels : Z) :
  (1 <= levels)%Z ->
  ((Z.of_nat (length (parts (parse_path s))) <= levels)%Z ->
     parse_path (path_to_string (parse_path s) levels) = parse_path s)
  /\ ((levels < Z.of_nat (length (parts (parse_path s))))%Z ->
      parse_path (path_to_string (parse_path s) levels)
      = mkPath EmptyString ("<...>" :: lastn (Z.to_nat levels) (parts (parse_path s)))
      /\ length (parts (parse_path (path_to_string (parse_path s) levels)))
         = S (Z.to_nat levels)).
Proof.
  intros Hlevels. pose proof (parse_path_wf s) as Hwf. split; intros Hlen.
  - unfold path_to_string.
    destruct (Z.gtb_spec (Z.of_nat (length (parts (parse_path s)))) levels); [lia|].
    now apply parse_as_posix.
  - rewrite path_to_string_long_parts by (assumption || lia).
    assert (Hgood : Forall (fun y => good_segment y = true)
                      (lastn (Z.to_nat levels) (parts (parse_path s))))
      by (apply parts_tail_good; [exact Hwf | lia]).
    assert (Hn : length (lastn (Z.to_nat levels) (parts (parse_path s))) = Z.to_nat levels)
      by (apply lastn_length; lia).
    rewrite parse_marker.
    + split; [reflexivity|].
      change (length ("<...>" :: lastn (Z.to_nat levels) (parts (parse_path s)))
              = S (Z.to_nat levels)).
      cbn [length]. now rewrite Hn.
    + exact Hgood.
    + intros Hnil. rewrite Hnil in Hn. cbn in Hn. lia.
Qed.

Lemma elided_text_read_back_witness :
  (1 <= 4)%Z
  /\ parse_path (path_to_string (parse_path "/home/user/project/tests/test_module.py") 4)
     = mkPath EmptyString ["<...>"; "user"; "project"; "tests"; "test_module.py"].
Proof.
  split; [lia|].
  refine (proj1 (proj2 (elided_text_read_back "/home/user/project/tests/test_module.py" 4 _) _));
    vm_compute; congruence.
Defined.

(** X3: eliding is idempotent: for a depth of at least one, eliding the path
    that an elided text denotes gives the same text again. *)
Theorem path_to_string_idempotent (s : string) (levels : Z) :
  (1 <= levels)%Z ->
  path_to_string (parse_path (path_to_string (parse_path s) levels)) levels
  = path_to_string (parse_path s) levels.
Proof.
  intros Hlevels. pose proof (parse_path_wf s) as Hwf.
  destruct (Z.le_gt_cases (Z.of_nat (length (parts (parse_path s)))) levels) as [Hle|Hgt].
  - assert (Hshort : path_to_string (parse_path s) levels = as_posix (parse_path s)).
    { unfold path_to_string.
      destruct (Z.gtb_spec (Z.of_nat (length (parts (parse_path s)))) levels);
        [lia | reflexivity]. }
    rewrite Hshort at 1. now rewrite (parse_as_posix _ Hwf).
  - assert (Hgood : Forall (fun y => good_segment y = true)
                      (lastn (Z.to_nat levels) (parts (parse_path s))))
      by (apply parts_tail_good; [exact Hwf | lia]).
    assert (Hn : length (lastn (Z.to_nat levels) (parts (parse_path s))) = Z.to_nat levels)
      by (apply lastn_length; lia).
    assert (Hne : lastn (Z.to_nat levels) (parts (parse_path s)) <> [])
      by (intros Hnil; rewrite Hnil in Hn; cbn in Hn; lia).
    rewrite (path_to_string_long_parts (parse_path s)) by (assumption || lia).
    rewrite (parse_marker _ Hgood Hne).
    rewrite path_to_string_long_parts.
    + do 2 f_equal.
      change (parts (mkPath EmptyString
                       ("<...>" :: lastn (Z.to_nat levels) (parts (parse_path s)))))
        with ("<...>" :: lastn (Z.to_nat levels) (parts (parse_path s))).
      unfold lastn at 1. cbn [length]. rewrite Hn.
      replace (S (Z.to_nat levels) - Z.to_nat levels)%nat with 1%nat by lia.
      reflexivity.
    + split; [left; reflexivity | constructor; [reflexivity | exact Hgood]].
    + change (parts (mkPath EmptyString
                       ("<...>" :: lastn (Z.to_nat levels) (parts (parse_path s)))))
        with ("<...>" :: lastn (Z.to_nat levels) (parts (parse_path s))).
      cbn [length]. rewrite Hn. lia.
Qed.

Lemma path_to_string_idempotent_witness :
  (1 <= 4)%Z
  /\ path_to_string
       (parse_path (path_to_string (parse_path "/home/user/project/tests/test_module.py") 4)) 4
     = "<...>/user/project/tests/test_module.py".
Proof.
  split; [lia|].
  exact (path_to_string_idempotent "/home/user/project/tests/test_module.py" 4 ltac:(lia)).
Defined.

Lemma path_to_string_elides_witness :
  (1 <= 4)%Z
  /\ path_to_string (parse_path "a/b/c/d") 4 = "a/b/c/d"
  /\ path_to_string (parse_path "/home/user/project/tests/test_module.py") 4
     = "<...>/user/project/tests/test_module.py".
Proof.
  split; [lia|]. split.
  - refine (proj1 (path_to_string_elides "a/b/c/d" 4 _) _); vm_compute; congruence.
  - refine (proj2 (path_to_string_elides "/home/user/project/tests/test_module.py" 4 _) _);
      vm_compute; congruence.
Defined.

Lemma no_failures_sentinel_witness :
  tests_of all_passed_report
    = Ok [ test_record "passed" "tests/test_one.py::test_alpha" VNone;
           VDict [("outcome", VStr "passed");
                  ("nodeid", VStr "tests/test_two.py::test_beta")] ]
  /\ extract_failing_test_details all_passed_report = Ok (nl, None).
Proof.
  split; [reflexivity|].
  apply (no_failures_sentinel all_passed_report _ eq_refl).
  repeat constructor; exists (VStr "passed"); split; reflexivity.
Defined.

Lemma extract_details_returns_witness :
  extract_details (VDict [("passed", VInt 2); ("total", VInt 2)])
    = Ok "Details: 2 passed, 2 total"
  /\ String.prefix "Details: " "Details: 2 passed, 2 total" = true.
Proof.
  split; [reflexivity|].
  exact (proj1 (proj1 (extract_details_returns
                         (VDict [("passed", VInt 2); ("total", VInt 2)]))
                  "Details: 2 passed, 2 total" eq_refl)).
Defined.

Lemma extract_test_run_details_returns_witness :
  extract_test_run_details one_failure_report = Ok "Details: 1 failed, 1 passed, 2 total"
  /\ exists m, getitem one_failure_report "summary" = Ok (VDict m)
               /\ "Details: 1 failed, 1 passed, 2 total"
                  = "Details: " ++ join ", " (map detail_entry m).
Proof.
  split; [reflexivity|].
  exact (proj1 (extract_test_run_details_returns one_failure_report
                  "Details: 1 failed, 1 passed, 2 total") eq_refl).
Defined.

(** ** The path elider at depth zero *)

Lemma posix_join_rooted (r : string) (segs : list string) :
  r = sep \/ r = sep ++ sep ->
  Forall (fun x => good_segment x = true) segs ->
  posix_join "<...>" (r :: segs) = r ++ join sep segs.
Proof.
  intros Hr Hgood. unfold posix_join. cbn [fold_left].
  assert (Hstep : join_step "<...>" r = r) by (destruct Hr as [-> | ->]; reflexivity).
  rewrite Hstep. destruct Hgood as [|x segs Hx Hsegs].
  - cbn. now rewrite append_nil_r.
  - destruct (good_segment_facts x Hx) as (Hne & Hslash & Hstart & _).
    cbn [fold_left].
    assert (Hfirst : join_step r x = r ++ x).
    { unfold join_step. rewrite Hstart. destruct Hr as [-> | ->]; reflexivity. }
    rewrite Hfirst. fold (posix_join (r ++ x) segs).
    rewrite posix_join_good.
    + rewrite join_flat. now rewrite append_assoc.
    + exact Hsegs.
    + destruct Hr as [-> | ->]; discriminate.
    + rewrite ends_with_slash_app by exact Hne. now apply no_slash_ends.
Qed.

(** X4: at depth zero nothing is cut off: the slice [parts[-0:]] is the whole
    tuple, so a relative path that is not empty comes back whole behind the
    marker, and a path with a root comes back as it is, without the marker,
    because its root restarts the joined path; the empty path is written as
    a dot. *)
Theorem path_to_string_at_zero (s : string) :
  (parts (parse_path s) = [] -> path_to_string (parse_path s) 0 = ".")
  /\ (root (parse_path s) = EmptyString -> tail (parse_path s) <> [] ->
      path_to_string (parse_path s) 0 = "<...>/" ++ as_posix (parse_path s))
  /\ (root (parse_path s) <> EmptyString ->
      path_to_string (parse_path s) 0 = as_posix (parse_path s)).
Proof.
  destruct (parse_path_wf s) as [Hroot Hgood].
  pose proof (parse_path_wf s) as Hwf.
  destruct (parse_path s) as [r t]. cbn [root tail] in *.
  split; [|split].
  - unfold parts. cbn [root tail]. intros Hnil. unfold path_to_string, parts.
    cbn [root tail]. destruct (String.eqb r EmptyString) eqn:Hr.
    + subst t. apply String.eqb_eq in Hr. subst r. reflexivity.
    + discriminate.
  - intros -> Hne. unfold path_to_string, parts. cbn [root tail String.eqb].
    destruct t as [|x t]; [contradiction|].
    change (Z.of_nat (length (x :: t)) >? 0)%Z with true. cbv iota.
    change (slice_last 0 (x :: t)) with (x :: t).
    rewrite marker_path by (assumption || discriminate).
    reflexivity.
  - intros Hr. assert (Hr' : r = sep \/ r = sep ++ sep) by (destruct Hroot as [?|[?|?]]; auto; contradiction).
    unfold path_to_string, parts. cbn [root tail].
    destruct (String.eqb_spec r EmptyString) as [|_]; [contradiction|].
    change (Z.of_nat (length (r :: t)) >? 0)%Z with true. cbv iota.
    change (slice_last 0 (r :: t)) with (r :: t).
    unfold Path_of_strings. rewrite (posix_join_rooted r t Hr' Hgood).
    assert (Hposix : as_posix (mkPath r t) = r ++ join sep t).
    { unfold as_posix. cbn [root tail]. destruct Hr' as [-> | ->]; reflexivity. }
    rewrite <- Hposix. now rewrite (parse_as_posix _ Hwf).
Qed.

Lemma path_to_string_at_zero_witness :
  root (parse_path "/home/user/test_module.py") <> EmptyString
  /\ path_to_string (parse_path "/home/user/test_module.py") 0 = "/home/user/test_module.py".
Proof.
  assert (H : root (parse_path "/home/user/test_module.py") <> EmptyString) by discriminate.
  split; [exact H|].
  exact (proj2 (proj2 (path_to_string_at_zero "/home/user/test_module.py")) H).
Defined.
